(** * GitHubAPIConsumer: a shallow embedding of [src/main.py]

    The client issues one blocking GET per operation, turns HTTP failures
    into [ValueError]s and reshapes the returned JSON.  Python values are
    embedded as [pyval], dictionaries as [gmap string pyval], exceptions as
    the [Raise] branch of [result], and the network as an explicit log of
    the requests sent together with an upstream oracle. *)

From stdpp Require Import gmap strings list fin_maps pretty.
From Stdlib Require Import Ascii String.

Set Warnings "-register-all".
Open Scope string_scope.
Open Scope nat_scope.

(** ** Python values *)

(** The values [json.loads] produces and the mappers build.  JSON numbers
    are taken to be integers; strings are byte strings (UTF-8). *)
Inductive pyval :=
| PNone
| PBool (b : bool)
| PInt (n : Z)
| PStr (s : string)
| PList (l : list pyval)
| PDict (d : gmap string pyval).

(** [bool(v)], the test performed by [if v:]. *)
Definition truthy (v : pyval) : bool :=
  match v with
  | PNone => false
  | PBool b => b
  | PInt n => negb (n =? 0)%Z
  | PStr s => negb (String.eqb s "")
  | PList l => negb (bool_decide (List.length l = 0))
  | PDict d => negb (bool_decide (size d = 0))
  end.

(** ** Exceptions *)

Inductive exn_class := ValueErrorC | TypeErrorC | AttributeErrorC.

(** [ValueError msg] is a [raise ValueError(msg)] written in main.py, with
    its message.  [Raised c] is an exception of class [c] raised by the
    interpreter or by a library ([datetime.strptime], attribute lookup,
    iteration); its text belongs to the library and is not modelled. *)
Inductive exn :=
| ValueError (msg : string)
| Raised (c : exn_class).

Definition class_of (e : exn) : exn_class :=
  match e with
  | ValueError _ => ValueErrorC
  | Raised c => c
  end.

Inductive result (A : Type) :=
| Ok (a : A)
| Raise (e : exn).
Arguments Ok {A} a.
Arguments Raise {A} e.

#[global] Instance result_ret : MRet result := fun _ a => Ok a.
#[global] Instance result_bind : MBind result := fun _ _ f m =>
  match m with
  | Ok a => f a
  | Raise e => Raise e
  end.

(** [for x in xs: treated.append(f(x))]: the first exception aborts the
    loop and nothing is returned. *)
Fixpoint for_each {A B} (f : A → result B) (xs : list A) : result (list B) :=
  match xs with
  | [] => Ok []
  | x :: xs' =>
      y ← f x;
      ys ← for_each f xs';
      Ok (y :: ys)
  end.

(** ** Dictionary access and iteration *)

(** [v.get(k, dflt)]: only dictionaries have [get]. *)
Definition py_get (v : pyval) (k : string) (dflt : pyval) : result pyval :=
  match v with
  | PDict d => Ok (default dflt (d !! k))
  | _ => Raise (Raised AttributeErrorC)
  end.

Fixpoint chars (s : string) : list pyval :=
  match s with
  | EmptyString => []
  | String c s' => PStr (String c EmptyString) :: chars s'
  end.

(** [iter(v)]: a list yields its elements, a dictionary its keys, a
    string its characters; the other values are not iterable. *)
Definition py_iter (v : pyval) : result (list pyval) :=
  match v with
  | PList l => Ok l
  | PDict d => Ok (PStr <$> (map_to_list d).*1)
  | PStr s => Ok (chars s)
  | _ => Raise (Raised TypeErrorC)
  end.

(** ** The user-summary mapper *)

(** The body of the loop of [_treat_users_data] (main.py 150-157). *)
Definition treat_user (user : pyval) : result pyval :=
  id ← py_get user "id" PNone;
  login ← py_get user "login" PNone;
  avatar_url ← py_get user "avatar_url" PNone;
  url ← py_get user "html_url" PNone;
  type ← py_get user "type" PNone;
  site_admin ← py_get user "site_admin" (PBool false);
  Ok (PDict (list_to_map
    [("id", id); ("login", login); ("avatar_url", avatar_url);
     ("url", url); ("type", type); ("site_admin", site_admin)])).

(** What [treat_user] builds from a dictionary, written with the
    defaults in place. *)
Definition user_summary (u : gmap string pyval) : gmap string pyval :=
  list_to_map
    [("id", default PNone (u !! "id"));
     ("login", default PNone (u !! "login"));
     ("avatar_url", default PNone (u !! "avatar_url"));
     ("url", default PNone (u !! "html_url"));
     ("type", default PNone (u !! "type"));
     ("site_admin", default (PBool false) (u !! "site_admin"))].

Definition _treat_users_data (users : pyval) : result pyval :=
  us ← py_iter users;
  treated ← for_each treat_user us;
  Ok (PList treated).

(** ** Timestamps: [datetime.strptime] and [strftime] *)

(** [datetime.strptime] compiles its format into a regular expression,
    matches it with backtracking at the start of the text, requires the
    match to cover the whole text, converts the captured groups with
    [int] and hands them to the [datetime] constructor, which checks the
    ranges.  The fragment of regular expressions that the format
    [%Y-%m-%dT%H:%M:%SZ] needs: *)
Inductive re :=
| Lit (c : ascii)
| Cls (lo hi : ascii)
| Dig
| Cat (r1 r2 : re)
| Alt (r1 r2 : re)
| Grp (name : string) (r : re).

Definition code (c : ascii) : nat := nat_of_ascii c.

Definition in_range (lo hi c : ascii) : bool :=
  (code lo <=? code c)%nat && (code c <=? code hi)%nat.

(** [\d] on ASCII text; the decimal digits of other scripts, which the
    library's [\d] and [int] also take, are left out. *)
Definition is_digit (c : ascii) : bool := in_range "0" "9" c.

(** The expression is compiled with [IGNORECASE]. *)
Definition lower (c : ascii) : ascii :=
  if in_range "A" "Z" c then ascii_of_nat (code c + 32) else c.

Section Matcher.
Context {X : Type}.

(** [rmatch r s caps k]: match [r] at the start of [s]; the
    continuation receives the text matched, the text left and the
    groups captured.  An alternative whose continuation fails is
    abandoned for the next one, as the backtracking matcher does. *)
Fixpoint rmatch (r : re) (s : string) (caps : gmap string string)
    (k : string → string → gmap string string → option X) : option X :=
  match r with
  | Lit c =>
      match s with
      | String a s' =>
          if Ascii.eqb (lower a) (lower c)
          then k (String a EmptyString) s' caps else None
      | EmptyString => None
      end
  | Cls lo hi =>
      match s with
      | String a s' =>
          if in_range lo hi a then k (String a EmptyString) s' caps else None
      | EmptyString => None
      end
  | Dig =>
      match s with
      | String a s' =>
          if is_digit a then k (String a EmptyString) s' caps else None
      | EmptyString => None
      end
  | Cat r1 r2 =>
      rmatch r1 s caps (fun m1 s1 c1 =>
        rmatch r2 s1 c1 (fun m2 s2 c2 => k (m1 ++ m2) s2 c2))
  | Alt r1 r2 =>
      match rmatch r1 s caps k with
      | Some x => Some x
      | None => rmatch r2 s caps k
      end
  | Grp name r1 =>
      rmatch r1 s caps (fun m s' c' => k m s' (<[name := m]> c'))
  end.
End Matcher.

Declare Scope re_scope.
Delimit Scope re_scope with re.
Bind Scope re_scope with re.
Infix "·" := Cat (at level 40, left associativity) : re_scope.
Infix "⊕" := Alt (at level 50, left associativity) : re_scope.

(** The groups of [_strptime.TimeRE]. *)
Definition body_Y : re := Dig · Dig · Dig · Dig.
Definition body_m : re :=
  Lit "1" · Cls "0" "2" ⊕ Lit "0" · Cls "1" "9" ⊕ Cls "1" "9".
Definition body_d : re :=
  Lit "3" · Cls "0" "1" ⊕ Cls "1" "2" · Dig ⊕ Lit "0" · Cls "1" "9"
  ⊕ Cls "1" "9" ⊕ Lit " " · Cls "1" "9".
Definition body_H : re := Lit "2" · Cls "0" "3" ⊕ Cls "0" "1" · Dig ⊕ Dig.
Definition body_M : re := Cls "0" "5" · Dig ⊕ Dig.
Definition body_S : re := Lit "6" · Cls "0" "1" ⊕ Cls "0" "5" · Dig ⊕ Dig.

Definition re_Y : re := Grp "Y" body_Y.
Definition re_m : re := Grp "m" body_m.
Definition re_d : re := Grp "d" body_d.
Definition re_H : re := Grp "H" body_H.
Definition re_M : re := Grp "M" body_M.
Definition re_S : re := Grp "S" body_S.

(** The format [%Y-%m-%dT%H:%M:%SZ]. *)
Definition strptime_regex : re :=
  re_Y · Lit "-" · re_m · Lit "-" · re_d · Lit "T"
       · re_H · Lit ":" · re_M · Lit ":" · re_S · Lit "Z".

Definition digit_of (c : ascii) : option nat :=
  if is_digit c then Some (code c - code "0") else None.

Fixpoint digits_value (s : string) (acc : nat) : option nat :=
  match s with
  | EmptyString => Some acc
  | String c s' =>
      match digit_of c with
      | Some d => digits_value s' (10 * acc + d)
      | None => None
      end
  end.

Fixpoint lstrip (s : string) : string :=
  match s with
  | String " " s' => lstrip s'
  | _ => s
  end.

(** [int(s)] on the texts a group can capture: decimal digits, after
    blanks that [int] strips. *)
Definition py_int (s : string) : option nat :=
  match lstrip s with
  | EmptyString => None
  | t => digits_value t 0
  end.

Record datetime := mk_datetime {
  year : nat; month : nat; day : nat;
  hour : nat; minute : nat; second : nat
}.

Definition is_leap (y : nat) : bool :=
  ((y mod 4 =? 0) && (negb (y mod 100 =? 0) || (y mod 400 =? 0)))%nat.

Definition days_in_month (y m : nat) : nat :=
  match m with
  | 1 | 3 | 5 | 7 | 8 | 10 | 12 => 31
  | 4 | 6 | 9 | 11 => 30
  | 2 => if is_leap y then 29 else 28
  | _ => 0
  end.

(** The range checks of the [datetime] constructor (MINYEAR = 1,
    MAXYEAR = 9999 = 100 * 100 - 1). *)
Definition valid_datetime (dt : datetime) : bool :=
  ((1 <=? year dt) && (year dt <? 100 * 100) &&
   (1 <=? month dt) && (month dt <=? 12) &&
   (1 <=? day dt) && (day dt <=? days_in_month (year dt) (month dt)) &&
   (hour dt <? 24) && (minute dt <? 60) && (second dt <? 60))%nat.

Definition group (caps : gmap string string) (name : string) : option nat :=
  s ← caps !! name; py_int s.

(** [datetime.strptime(v, "%Y-%m-%dT%H:%M:%SZ")]. *)
Definition strptime (v : pyval) : result datetime :=
  match v with
  | PStr s =>
      match rmatch strptime_regex s ∅ (fun _ rest caps => Some (rest, caps)) with
      | None => Raise (Raised ValueErrorC)
      | Some (String _ _, _) => Raise (Raised ValueErrorC)
      | Some (EmptyString, caps) =>
          match group caps "Y", group caps "m", group caps "d",
                group caps "H", group caps "M", group caps "S" with
          | Some y, Some mo, Some d, Some h, Some mi, Some se =>
              let dt := mk_datetime y mo d h mi se in
              if valid_datetime dt then Ok dt else Raise (Raised ValueErrorC)
          | _, _, _, _, _, _ => Raise (Raised ValueErrorC)
          end
      end
  | _ => Raise (Raised TypeErrorC)
  end.

Definition digit_char (n : nat) : ascii := ascii_of_nat (code "0" + n).

Definition pad2 (n : nat) : string :=
  String (digit_char (n / 10)) (String (digit_char (n mod 10)) EmptyString).

Definition pad4 (n : nat) : string :=
  String (digit_char (n / 1000)) (String (digit_char (n / 100 mod 10))
    (pad2 (n mod 100))).

(** [dt.strftime("%d/%m/%Y %H:%M:%S")].  [%d], [%m], [%H], [%M] and [%S]
    are zero-filled to two digits.  [%Y] is handed to the C library, which
    (glibc, under CPython 3.11) prints the year in decimal without
    padding: the year 999 comes out as [999], the year 5 as [5]. *)
Definition strftime (dt : datetime) : string :=
  pad2 (day dt) ++ "/" ++ pad2 (month dt) ++ "/" ++ pretty (year dt) ++ " " ++
  pad2 (hour dt) ++ ":" ++ pad2 (minute dt) ++ ":" ++ pad2 (second dt).

(** The text of a timestamp in the format the upstream sends,
    [YYYY-MM-DDTHH:MM:SSZ]. *)
Definition iso8601_z (dt : datetime) : string :=
  pad4 (year dt) ++ "-" ++ pad2 (month dt) ++ "-" ++ pad2 (day dt) ++ "T" ++
  pad2 (hour dt) ++ ":" ++ pad2 (minute dt) ++ ":" ++ pad2 (second dt) ++ "Z".


(** A text of ASCII characters only.  On such a text [is_digit] is the
    library's [\d]; a text with decimal digits of other scripts, which the
    library also parses, is outside what [strptime] models. *)
Fixpoint ascii_text (s : string) : bool :=
  match s with
  | EmptyString => true
  | String c s' => (code c <? 128)%nat && ascii_text s'
  end.

(** The block repeated for [created_at] and [updated_at] in
    [_treat_user_detail] (main.py 162-170) and [_treat_repositories_data]
    (main.py 195-203): a falsy value is kept as it is, any other is parsed
    and formatted. *)
Definition treat_timestamp (v : pyval) : result pyval :=
  if truthy v then
    dt ← strptime v;
    Ok (PStr (strftime dt))
  else Ok v.

(** ** The user-detail and repository mappers *)

Definition _treat_user_detail (user : pyval) : result pyval :=
  created_at ← py_get user "created_at" PNone;
  created_at ← treat_timestamp created_at;
  updated_at ← py_get user "updated_at" PNone;
  updated_at ← treat_timestamp updated_at;
  id ← py_get user "id" PNone;
  login ← py_get user "login" PNone;
  name ← py_get user "name" PNone;
  company ← py_get user "company" PNone;
  blog ← py_get user "blog" PNone;
  location ← py_get user "location" PNone;
  email ← py_get user "email" PNone;
  bio ← py_get user "bio" PNone;
  public_repos ← py_get user "public_repos" (PInt 0);
  public_gists ← py_get user "public_gists" (PInt 0);
  followers ← py_get user "followers" (PInt 0);
  following ← py_get user "following" (PInt 0);
  avatar_url ← py_get user "avatar_url" PNone;
  url ← py_get user "html_url" PNone;
  Ok (PDict (list_to_map
    [("id", id); ("login", login); ("name", name); ("company", company);
     ("blog", blog); ("location", location); ("email", email); ("bio", bio);
     ("public_repos", public_repos); ("public_gists", public_gists);
     ("followers", followers); ("following", following);
     ("created_at", created_at); ("updated_at", updated_at);
     ("avatar_url", avatar_url); ("url", url)])).

(** The body of the loop of [_treat_repositories_data] (main.py 195-221).
    [repo.get("owner", {}).get("login")] supplies the empty dictionary
    only when the key is missing: a key bound to [None] yields [None],
    which has no [get]. *)
Definition treat_repo (repo : pyval) : result pyval :=
  created_at ← py_get repo "created_at" PNone;
  created_at ← treat_timestamp created_at;
  updated_at ← py_get repo "updated_at" PNone;
  updated_at ← treat_timestamp updated_at;
  id ← py_get repo "id" PNone;
  name ← py_get repo "name" PNone;
  full_name ← py_get repo "full_name" PNone;
  owner_obj ← py_get repo "owner" (PDict ∅);
  owner ← py_get owner_obj "login" PNone;
  description ← py_get repo "description" PNone;
  language ← py_get repo "language" PNone;
  stars ← py_get repo "stargazers_count" (PInt 0);
  forks ← py_get repo "forks_count" (PInt 0);
  watchers ← py_get repo "watchers_count" (PInt 0);
  open_issues ← py_get repo "open_issues_count" (PInt 0);
  url ← py_get repo "html_url" PNone;
  is_fork ← py_get repo "fork" (PBool false);
  is_archived ← py_get repo "archived" (PBool false);
  Ok (PDict (list_to_map
    [("id", id); ("name", name); ("full_name", full_name); ("owner", owner);
     ("description", description); ("language", language); ("stars", stars);
     ("forks", forks); ("watchers", watchers); ("open_issues", open_issues);
     ("created_at", created_at); ("updated_at", updated_at); ("url", url);
     ("is_fork", is_fork); ("is_archived", is_archived)])).

Definition _treat_repositories_data (repos : pyval) : result pyval :=
  rs ← py_iter repos;
  treated ← for_each treat_repo rs;
  Ok (PList treated).

(** ** The network *)

(** What [requests.get] is called with. *)
Record request := mk_request {
  req_url : string;
  req_headers : gmap string string;
  req_params : option (gmap string pyval)
}.

(** What [requests.get] returns: the status line, the final URL and the
    body, which [response.json()] either parses ([inl]) or rejects
    ([inr], with the text of the [JSONDecodeError], a [RequestException]
    of the requests library). *)
Record response := mk_response {
  status_code : Z;
  reason : string;
  resp_url : string;
  body : pyval + string
}.

(** [Failed detail]: [requests.get] raised a [RequestException] (no
    connection, time-out, ...) whose text is [detail]. *)
Inductive outcome :=
| Responded (r : response)
| Failed (detail : string).

(** An operation of the client runs against the log of the requests sent
    so far, extends it and returns a value or raises. *)
Definition net (A : Type) : Type := list request → list request * result A.

Definition net_bind {A B} (m : net A) (f : A → net B) : net B :=
  fun log =>
    match m log with
    | (log', Ok a) => f a log'
    | (log', Raise e) => (log', Raise e)
    end.

Definition lift {A} (r : result A) : net A := fun log => (log, r).

Notation "x ⇐ m ; k" := (net_bind m (fun x => k))
  (at level 20, m at level 100, k at level 200, right associativity,
   only parsing).

(** [Response.raise_for_status]: the text of the [HTTPError] raised for a
    4xx or 5xx status, nothing for any other status. *)
Definition raise_for_status (r : response) : option string :=
  if bool_decide (400 ≤ status_code r < 500)%Z then
    Some (pretty (status_code r) ++ " Client Error: " ++ reason r
            ++ " for url: " ++ resp_url r)
  else if bool_decide (500 ≤ status_code r < 600)%Z then
    Some (pretty (status_code r) ++ " Server Error: " ++ reason r
            ++ " for url: " ++ resp_url r)
  else None.

Record GitHubAPIConsumer := mk_consumer { headers : gmap string string }.

Definition BASE_URL : string := "https://api.github.com".

Definition __init__ (token : option string) : GitHubAPIConsumer :=
  let headers : gmap string string :=
    list_to_map [("Accept", "application/vnd.github.v3+json");
                 ("User-Agent", "GitHub-API-Consumer")] in
  match token with
  | Some (String c t) => mk_consumer (<["Authorization" := "token " ++ String c t]> headers)
  | _ => mk_consumer headers
  end.

Definition user_valid_sorts : list string :=
  ["followers"; "repositories"; "joined"; "best-match"].

Definition repo_valid_sorts : list string :=
  ["stars"; "forks"; "help-wanted-issues"; "updated"; "best-match"].

Section Client.
(** The upstream: its answer to a request may depend on what it was
    sent before. *)
Variable upstream : list request → request → outcome.

Definition requests_get (url : string) (hs : gmap string string)
    (params : option (gmap string pyval)) (log : list request)
    : list request * outcome :=
  let r := mk_request url hs params in
  ((log ++ [r])%list, upstream log r).

Definition _make_request (self : GitHubAPIConsumer) (endpoint : string)
    (params : option (gmap string pyval)) : net pyval :=
  fun log =>
    let url := BASE_URL ++ endpoint in
    let '(log', o) := requests_get url (headers self) params log in
    (log',
     match o with
     | Responded r =>
         match raise_for_status r with
         | Some e =>
             if (status_code r =? 404)%Z then
               Raise (ValueError ("Recurso não encontrado: " ++ endpoint))
             else if (status_code r =? 403)%Z then
               Raise (ValueError "Rate limit excedido. Use um token de autenticação.")
             else if (status_code r =? 401)%Z then
               Raise (ValueError "Token de autenticação inválido")
             else
               Raise (ValueError ("Erro HTTP " ++ pretty (status_code r) ++ ": " ++ e))
         | None =>
             match body r with
             | inl payload => Ok payload
             | inr detail => Raise (ValueError ("Erro na requisição: " ++ detail))
             end
         end
     | Failed detail => Raise (ValueError ("Erro na requisição: " ++ detail))
     end).

Definition get_users (self : GitHubAPIConsumer) (since per_page : Z) : net pyval :=
  let params : gmap string pyval :=
    list_to_map [("since", PInt since); ("per_page", PInt (Z.min per_page 100))] in
  users ⇐ _make_request self "/users" (Some params);
  lift (_treat_users_data users).

Definition search_users (self : GitHubAPIConsumer)
    (query sort order : string) (per_page : Z) : net pyval :=
  let valid_sorts := user_valid_sorts in
  if decide (sort ∈ valid_sorts) then
    let params : gmap string pyval :=
      list_to_map [("q", PStr query); ("sort", PStr sort); ("order", PStr order);
                   ("per_page", PInt (Z.min per_page 100))] in
    result ⇐ _make_request self "/search/users" (Some params);
    lift (total_count ← py_get result "total_count" (PInt 0);
          incomplete_results ← py_get result "incomplete_results" (PBool false);
          items ← py_get result "items" (PList []);
          users ← _treat_users_data items;
          Ok (PDict (list_to_map
            [("total_count", total_count);
             ("incomplete_results", incomplete_results);
             ("users", users)])))
  else
    lift (Raise (ValueError ("Sort inválido. Use: " ++ String.concat ", " valid_sorts))).

Definition get_user_details (self : GitHubAPIConsumer) (username : string)
    : net pyval :=
  user ⇐ _make_request self ("/users/" ++ username) None;
  lift (_treat_user_detail user).

Definition search_repositories (self : GitHubAPIConsumer)
    (query sort order : string) (per_page : Z) : net pyval :=
  let valid_sorts := repo_valid_sorts in
  if decide (sort ∈ valid_sorts) then
    let params : gmap string pyval :=
      list_to_map [("q", PStr query); ("sort", PStr sort); ("order", PStr order);
                   ("per_page", PInt (Z.min per_page 100))] in
    result ⇐ _make_request self "/search/repositories" (Some params);
    lift (total_count ← py_get result "total_count" (PInt 0);
          incomplete_results ← py_get result "incomplete_results" (PBool false);
          items ← py_get result "items" (PList []);
          repositories ← _treat_repositories_data items;
          Ok (PDict (list_to_map
            [("total_count", total_count);
             ("incomplete_results", incomplete_results);
             ("repositories", repositories)])))
  else
    lift (Raise (ValueError ("Sort inválido. Use: " ++ String.concat ", " valid_sorts))).
End Client.

(** ** What the mappers build from a dictionary *)

(** The dictionary literal of [_treat_user_detail] once the record is
    known to be a dictionary and its two timestamps have been treated. *)
Definition user_detail (user : gmap string pyval) (created_at updated_at : pyval)
    : gmap string pyval :=
  list_to_map
    [("id", default PNone (user !! "id"));
     ("login", default PNone (user !! "login"));
     ("name", default PNone (user !! "name"));
     ("company", default PNone (user !! "company"));
     ("blog", default PNone (user !! "blog"));
     ("location", default PNone (user !! "location"));
     ("email", default PNone (user !! "email"));
     ("bio", default PNone (user !! "bio"));
     ("public_repos", default (PInt 0) (user !! "public_repos"));
     ("public_gists", default (PInt 0) (user !! "public_gists"));
     ("followers", default (PInt 0) (user !! "followers"));
     ("following", default (PInt 0) (user !! "following"));
     ("created_at", created_at); ("updated_at", updated_at);
     ("avatar_url", default PNone (user !! "avatar_url"));
     ("url", default PNone (user !! "html_url"))].

(** The dictionary literal of [_treat_repositories_data], likewise, with
    the owner's login looked up. *)
Definition repo_summary (repo : gmap string pyval)
    (created_at updated_at owner : pyval) : gmap string pyval :=
  list_to_map
    [("id", default PNone (repo !! "id"));
     ("name", default PNone (repo !! "name"));
     ("full_name", default PNone (repo !! "full_name"));
     ("owner", owner);
     ("description", default PNone (repo !! "description"));
     ("language", default PNone (repo !! "language"));
     ("stars", default (PInt 0) (repo !! "stargazers_count"));
     ("forks", default (PInt 0) (repo !! "forks_count"));
     ("watchers", default (PInt 0) (repo !! "watchers_count"));
     ("open_issues", default (PInt 0) (repo !! "open_issues_count"));
     ("created_at", created_at); ("updated_at", updated_at);
     ("url", default PNone (repo !! "html_url"));
     ("is_fork", default (PBool false) (repo !! "fork"));
     ("is_archived", default (PBool false) (repo !! "archived"))].

(** [repo.get("owner", {}).get("login")]. *)
Definition owner_login (repo : gmap string pyval) : result pyval :=
  py_get (default (PDict ∅) (repo !! "owner")) "login" PNone.

(** An ASCII text that is parsed (it is truthy) and that the format
    rejects. *)
Definition malformed (s : string) : Prop :=
  s ≠ "" ∧ ascii_text s = true ∧ ∃ e, strptime (PStr s) = Raise e.


(** ** Running an operation twice *)

(** The results of an operation run from [log] and run again from the log
    the first run left. *)
Definition twice {A} (m : net A) (log : list request) : result A * result A :=
  (snd (m log), snd (m (fst (m log)))).

(** The dictionary a search operation returns: the two counters of the
    payload, with their defaults, and the shaped items under [key]. *)
Definition search_result (key : string) (payload : gmap string pyval)
    (shaped : list pyval) : gmap string pyval :=
  list_to_map
    [("total_count", default (PInt 0) (payload !! "total_count"));
     ("incomplete_results", default (PBool false) (payload !! "incomplete_results"));
     (key, PList shaped)].

(** ** Records among the values *)

(** A JSON object, the only value with a [get]. *)
Definition is_record (v : pyval) : bool :=
  match v with
  | PDict _ => true
  | _ => false
  end.

(** * Properties *)

(** ** The timestamp model on sample texts *)

Example strptime_probe_1 :
  treat_timestamp (PStr "2011-01-25T18:44:36Z") = Ok (PStr "25/01/2011 18:44:36").
Proof. vm_compute. reflexivity. Qed.
Example strptime_probe_years :
  treat_timestamp (PStr "0999-01-01T00:00:00Z") = Ok (PStr "01/01/999 00:00:00") ∧
  treat_timestamp (PStr "0005-01-01T00:00:00Z") = Ok (PStr "01/01/5 00:00:00") ∧
  treat_timestamp (PStr "9999-12-31T23:59:59Z") = Ok (PStr "31/12/9999 23:59:59").
Proof. repeat split; vm_compute; reflexivity. Qed.
Example strptime_probe_2 :
  treat_timestamp (PStr "2011-1-5t8:4:6z") = Ok (PStr "05/01/2011 08:04:06").
Proof. vm_compute. reflexivity. Qed.
Example strptime_probe_3 :
  treat_timestamp (PStr "2011-01- 5T18:44:36Z") = Ok (PStr "05/01/2011 18:44:36").
Proof. vm_compute. reflexivity. Qed.
Example strptime_probe_4 :
  Forall (fun s => strptime (PStr s) = Raise (Raised ValueErrorC))
    ["2011-02-30T00:00:00Z"; "0000-01-01T00:00:00Z"; "2011-01-25T18:44:60Z";
     "2011-01-25T18:44:36Z "; "2011-01-25T24:00:00Z"; "2011-13-01T00:00:00Z";
     "2011-01-25T18:44:36"; "1900-02-29T00:00:00Z"; "2011-01-25T18:44:036Z";
     "2011-00-25T18:44:36Z"; ""; "garbage"].
Proof. repeat constructor. Qed.
Example strptime_probe_5 :
  treat_timestamp (PStr "2012-02-29T00:00:00Z") = Ok (PStr "29/02/2012 00:00:00").
Proof. vm_compute. reflexivity. Qed.

(** ** Loops and dictionary literals *)

Lemma for_each_Forall2 {A B} (f : A → result B) xs ys :
  for_each f xs = Ok ys ↔ Forall2 (fun x y => f x = Ok y) xs ys.
Proof.
  revert ys. induction xs as [|x xs IH]; intros ys; simpl.
  - split.
    + intros [= <-]. constructor.
    + intros H. inversion H. reflexivity.
  - split.
    + destruct (f x) as [y|e] eqn:Hx; simpl; [|discriminate].
      destruct (for_each f xs) as [ys'|e] eqn:Hxs; simpl; [|discriminate].
      intros [= <-]. constructor; [assumption|]. apply IH. reflexivity.
    + intros H. inversion H as [|? y ? ys' Hx Hxs]; subst.
      rewrite Hx. simpl. apply IH in Hxs. rewrite Hxs. reflexivity.
Qed.

Lemma for_each_total {A B} (f : A → result B) (g : A → B) xs :
  (∀ x, x ∈ xs → f x = Ok (g x)) → for_each f xs = Ok (g <$> xs).
Proof.
  induction xs as [|x xs IH]; intros H; simpl; [reflexivity|].
  rewrite (H x) by constructor. simpl.
  rewrite IH; [reflexivity|]. intros y Hy. apply H. by constructor.
Qed.

Lemma for_each_raises {A B} (f : A → result B) xs x e :
  x ∈ xs → f x = Raise e → ∃ e', for_each f xs = Raise e'.
Proof.
  induction xs as [|y xs IH]; intros Hin Hx; [by apply elem_of_nil in Hin|].
  simpl. destruct (f y) as [b|e1] eqn:Hy; simpl; [|eauto].
  apply elem_of_cons in Hin as [->|Hin]; [congruence|].
  destruct (IH Hin Hx) as [e' ->]. simpl. eauto.
Qed.

Lemma treat_user_dict (u : gmap string pyval) :
  treat_user (PDict u) = Ok (PDict (user_summary u)).
Proof. reflexivity. Qed.

Lemma user_summary_dom (u : gmap string pyval) :
  dom (user_summary u)
  = ({[ "id"; "login"; "avatar_url"; "url"; "type"; "site_admin" ]} : gset string).
Proof.
  unfold user_summary. rewrite dom_list_to_map_L. simpl.
  set_solver.
Qed.

(** ** The user-summary mapper is total on records *)

(** C7: on every list of raw user records the user-summary mapper returns
    (it raises nothing), one shaped record per input record in the same
    order; each shaped record has exactly the six keys id, login,
    avatar_url, url, type and site_admin; each carries the raw value of its
    field, or None when the raw record lacks it, except site_admin, which
    is False when lacking. *)
Theorem users_mapper_total (us : list (gmap string pyval)) :
  ∃ outs : list (gmap string pyval),
    _treat_users_data (PList (PDict <$> us)) = Ok (PList (PDict <$> outs)) ∧
    Forall2 (fun u o =>
      dom o = ({[ "id"; "login"; "avatar_url"; "url"; "type"; "site_admin" ]} : gset string) ∧
      o !! "id" = Some (default PNone (u !! "id")) ∧
      o !! "login" = Some (default PNone (u !! "login")) ∧
      o !! "avatar_url" = Some (default PNone (u !! "avatar_url")) ∧
      o !! "url" = Some (default PNone (u !! "html_url")) ∧
      o !! "type" = Some (default PNone (u !! "type")) ∧
      o !! "site_admin" = Some (default (PBool false) (u !! "site_admin")) ∧
      (u !! "site_admin" = None → o !! "site_admin" = Some (PBool false))) us outs.
Proof.
  exists (user_summary <$> us). split.
  - unfold _treat_users_data. simpl.
    rewrite (for_each_total treat_user (fun v =>
      match v with PDict u => PDict (user_summary u) | _ => v end)).
    + simpl. do 2 f_equal. rewrite <- !list_fmap_compose. reflexivity.
    + intros x Hx. apply list_elem_of_fmap in Hx as [u [-> _]].
      apply treat_user_dict.
  - apply Forall2_fmap_r, Forall_Forall2_diag, Forall_forall.
    intros u _. split; [apply user_summary_dom|].
    repeat split; try reflexivity.
    intros Hn. unfold user_summary. simpl. rewrite Hn. reflexivity.
Qed.

(** ** Parsing what the upstream format prints *)

Lemma app_String a s r : String a s ++ r = String a (s ++ r).
Proof. reflexivity. Qed.
Lemma app_Empty r : "" ++ r = r.
Proof. reflexivity. Qed.

Ltac norm_app := rewrite ?app_String, ?app_Empty.

Lemma is_digit_char n : n < 10 → is_digit (digit_char n) = true.
Proof. intros H. do 10 (destruct n as [|n]; [reflexivity|]). lia. Qed.

Section Fields.
Context {X : Type}.
Implicit Types (k : string → string → gmap string string → option X).

Lemma rmatch_body_Y y rest caps k :
  y < 100 * 100 →
  rmatch body_Y (pad4 y ++ rest) caps k = k (pad4 y) rest caps.
Proof.
  intros H. unfold body_Y, pad4, pad2. norm_app. cbn [rmatch].
  assert (y / 1000 < 10) by (apply Nat.Div0.div_lt_upper_bound; lia).
  assert (y / 100 mod 10 < 10) by (apply Nat.mod_upper_bound; lia).
  assert (y mod 100 / 10 < 10)
    by (apply Nat.Div0.div_lt_upper_bound; pose proof (Nat.mod_upper_bound y 100); lia).
  assert (y mod 100 mod 10 < 10) by (apply Nat.mod_upper_bound; lia).
  rewrite !is_digit_char by assumption. reflexivity.
Qed.

Lemma rmatch_body_m (n : nat) rest caps k x :
  1 ≤ n ≤ 12 →
  k (pad2 n) rest caps = Some x →
  rmatch body_m (pad2 n ++ rest) caps k = Some x.
Proof. 
  intros Hn H.
  do 13 (destruct n as [|n]; [try lia; vm_compute; vm_compute in H; rewrite H; reflexivity|]).
  lia.
Qed.

Tactic Notation "by_cases" ident(n) hyp(H) integer(bound) :=
  do bound (destruct n as [|n];
            [try lia; vm_compute; vm_compute in H; rewrite H; reflexivity|]);
  lia.

Lemma rmatch_body_d (n : nat) rest caps k x :
  1 ≤ n ≤ 31 →
  k (pad2 n) rest caps = Some x →
  rmatch body_d (pad2 n ++ rest) caps k = Some x.
Proof. intros Hn H. by_cases n H 32. Qed.

Lemma rmatch_body_H (n : nat) rest caps k x :
  n < 24 →
  k (pad2 n) rest caps = Some x →
  rmatch body_H (pad2 n ++ rest) caps k = Some x.
Proof. intros Hn H. by_cases n H 24. Qed.

Lemma rmatch_body_M (n : nat) rest caps k x :
  n < 60 →
  k (pad2 n) rest caps = Some x →
  rmatch body_M (pad2 n ++ rest) caps k = Some x.
Proof. intros Hn H. by_cases n H 60. Qed.

Lemma rmatch_body_S (n : nat) rest caps k x :
  n < 60 →
  k (pad2 n) rest caps = Some x →
  rmatch body_S (pad2 n ++ rest) caps k = Some x.
Proof. intros Hn H. by_cases n H 60. Qed.

Lemma rmatch_Cat r1 r2 s caps k :
  rmatch (r1 · r2) s caps k
  = rmatch r1 s caps (fun m1 s1 c1 =>
      rmatch r2 s1 c1 (fun m2 s2 c2 => k (m1 ++ m2) s2 c2)).
Proof. reflexivity. Qed.

Lemma rmatch_Grp name r s caps k :
  rmatch (Grp name r) s caps k
  = rmatch r s caps (fun m s' c' => k m s' (<[name := m]> c')).
Proof. reflexivity. Qed.

Lemma rmatch_Lit c rest caps k :
  rmatch (Lit c) (String c EmptyString ++ rest) caps k
  = k (String c EmptyString) rest caps.
Proof. cbn [rmatch]. rewrite app_String, app_Empty, Ascii.eqb_refl. reflexivity. Qed.
End Fields.

Lemma digit_of_char n : n < 10 → digit_of (digit_char n) = Some n.
Proof. intros H. do 10 (destruct n as [|n]; [reflexivity|]). lia. Qed.

Lemma lstrip_digit n s :
  n < 10 → lstrip (String (digit_char n) s) = String (digit_char n) s.
Proof. intros H. do 10 (destruct n as [|n]; [reflexivity|]). lia. Qed.

Lemma py_int_pad2 n : n < 100 → py_int (pad2 n) = Some n.
Proof.
  intros H. unfold py_int, pad2.
  assert (n / 10 < 10) by (apply Nat.Div0.div_lt_upper_bound; lia).
  assert (n mod 10 < 10) by (apply Nat.mod_upper_bound; lia).
  rewrite lstrip_digit by assumption. cbn [digits_value].
  rewrite !digit_of_char by assumption. f_equal.
  pose proof (Nat.div_mod_eq n 10). lia.
Qed.

Lemma py_int_pad4 y : y < 100 * 100 → py_int (pad4 y) = Some y.
Proof.
  intros H. unfold py_int, pad4, pad2.
  assert (y / 1000 < 10) by (apply Nat.Div0.div_lt_upper_bound; lia).
  assert (y / 100 mod 10 < 10) by (apply Nat.mod_upper_bound; lia).
  assert (y mod 100 / 10 < 10)
    by (apply Nat.Div0.div_lt_upper_bound; pose proof (Nat.mod_upper_bound y 100); lia).
  assert (y mod 100 mod 10 < 10) by (apply Nat.mod_upper_bound; lia).
  rewrite lstrip_digit by assumption. cbn [digits_value].
  rewrite !digit_of_char by assumption. f_equal.
  pose proof (Nat.div_mod_eq y 100).
  pose proof (Nat.div_mod_eq (y / 100) 10).
  pose proof (Nat.div_mod_eq (y mod 100) 10).
  assert (y / 100 / 10 = y / 1000) by (rewrite Nat.Div0.div_div; reflexivity).
  lia.
Qed.

Lemma days_in_month_le y m : days_in_month y m ≤ 31.
Proof.
  unfold days_in_month.
  do 13 (destruct m as [|m]; [try lia; try (destruct (is_leap y); lia)|]). lia.
Qed.

Lemma strptime_iso8601_z dt :
  valid_datetime dt = true → strptime (PStr (iso8601_z dt)) = Ok dt.
Proof.
  intros Hv. pose proof Hv as Hv'. unfold valid_datetime in Hv'.
  destruct dt as [y mo d h mi se]. cbn [year month day hour minute second] in *.
  repeat (apply andb_prop in Hv' as [Hv' ?]).
  repeat match goal with
  | H : (_ <=? _)%nat = true |- _ => apply Nat.leb_le in H
  | H : (_ <? _)%nat = true |- _ => apply Nat.ltb_lt in H
  end.
  pose proof (days_in_month_le y mo).
  unfold strptime.
  assert (rmatch strptime_regex (iso8601_z (mk_datetime y mo d h mi se)) ∅
            (fun _ rest caps => Some (rest, caps))
          = Some (EmptyString,
                  <["S" := pad2 se]> (<["M" := pad2 mi]> (<["H" := pad2 h]>
                  (<["d" := pad2 d]> (<["m" := pad2 mo]> (<["Y" := pad4 y]> ∅))))))) as ->.
  { unfold strptime_regex, iso8601_z, re_Y, re_m, re_d, re_H, re_M, re_S.
    cbn [year month day hour minute second].
    rewrite !rmatch_Cat, rmatch_Grp, rmatch_body_Y by lia. cbv beta.
    rewrite rmatch_Lit, rmatch_Grp. apply rmatch_body_m; [lia|]. cbv beta.
    rewrite rmatch_Lit, rmatch_Grp. apply rmatch_body_d; [lia|]. cbv beta.
    rewrite rmatch_Lit, rmatch_Grp. apply rmatch_body_H; [lia|]. cbv beta.
    rewrite rmatch_Lit, rmatch_Grp. apply rmatch_body_M; [lia|]. cbv beta.
    rewrite rmatch_Lit, rmatch_Grp. apply rmatch_body_S; [lia|]. cbv beta.
    change "Z" with (String "Z" EmptyString ++ EmptyString).
    rewrite rmatch_Lit. reflexivity. }
  unfold group.
  repeat (rewrite lookup_insert_eq || rewrite lookup_insert_ne by discriminate).
  cbn [mbind option_bind].
  rewrite py_int_pad4, !py_int_pad2 by lia.
  rewrite Hv. reflexivity.
Qed.

Lemma treat_timestamp_iso8601_z dt :
  valid_datetime dt = true →
  treat_timestamp (PStr (iso8601_z dt)) = Ok (PStr (strftime dt)).
Proof.
  intros Hv. unfold treat_timestamp.
  replace (truthy (PStr (iso8601_z dt))) with true by reflexivity.
  rewrite strptime_iso8601_z by assumption. reflexivity.
Qed.

(** ** The mappers on dictionaries *)

Lemma treat_user_detail_dict (user : gmap string pyval) :
  _treat_user_detail (PDict user)
  = (c ← treat_timestamp (default PNone (user !! "created_at"));
     u ← treat_timestamp (default PNone (user !! "updated_at"));
     Ok (PDict (user_detail user c u))).
Proof. reflexivity. Qed.

Lemma treat_repo_dict (repo : gmap string pyval) :
  treat_repo (PDict repo)
  = (c ← treat_timestamp (default PNone (repo !! "created_at"));
     u ← treat_timestamp (default PNone (repo !! "updated_at"));
     o ← owner_login repo;
     Ok (PDict (repo_summary repo c u o))).
Proof. reflexivity. Qed.

Lemma treat_repositories_data_single (repo : pyval) :
  _treat_repositories_data (PList [repo])
  = (out ← treat_repo repo; Ok (PList [out])).
Proof.
  unfold _treat_repositories_data. simpl.
  destruct (treat_repo repo); reflexivity.
Qed.




(** ** Timestamps are reformatted *)




(** ** Malformed timestamps *)

Lemma strptime_str_raises s e :
  strptime (PStr s) = Raise e → e = Raised ValueErrorC.
Proof.
  unfold strptime. repeat case_match; congruence.
Qed.

Lemma treat_timestamp_malformed s :
  malformed s → treat_timestamp (PStr s) = Raise (Raised ValueErrorC).
Proof.
  intros [Hne [_ [e He]]]. unfold treat_timestamp. cbn [truthy].
  apply String.eqb_neq in Hne. rewrite Hne. cbn [negb].
  rewrite He, (strptime_str_raises _ _ He). reflexivity.
Qed.

(** An empty text in a timestamp field is present and the format rejects
    it, yet both mappers return, keeping the empty text. *)
Lemma empty_timestamp_kept :
  let r : gmap string pyval := {[ "created_at" := PStr "" ]} in
  r !! "created_at" = Some (PStr "") ∧
  strptime (PStr "") = Raise (Raised ValueErrorC) ∧
  (∃ out, _treat_user_detail (PDict r) = Ok (PDict out) ∧
          out !! "created_at" = Some (PStr "")) ∧
  (∃ out, _treat_repositories_data (PList [PDict r]) = Ok (PList [PDict out]) ∧
          out !! "created_at" = Some (PStr "")).
Proof.
  repeat split.
  - eexists. split; reflexivity.
  - eexists. split; reflexivity.
Qed.

(** C5, amended: a detail or repository record whose created_at or
    updated_at is a non-empty ASCII text that the fixed format does not
    parse makes the mapper raise, and no shaped result is produced, also for a
    list of repositories that contains such a record; the exception is the
    parser's ValueError when the text is in created_at, or is in
    updated_at and created_at was treated without an exception. *)
Theorem malformed_timestamp_propagates
    (r : gmap string pyval) (s : string) (rs : list pyval) :
  malformed s →
  r !! "created_at" = Some (PStr s) ∨ r !! "updated_at" = Some (PStr s) →
  PDict r ∈ rs →
  (∃ e, _treat_user_detail (PDict r) = Raise e) ∧
  (∃ e, _treat_repositories_data (PList rs) = Raise e) ∧
  (r !! "created_at" = Some (PStr s) ∨
   (∃ c, treat_timestamp (default PNone (r !! "created_at")) = Ok c) →
   _treat_user_detail (PDict r) = Raise (Raised ValueErrorC) ∧
   _treat_repositories_data (PList [PDict r]) = Raise (Raised ValueErrorC)).
Proof.
  intros Hs Hf Hin. apply treat_timestamp_malformed in Hs.
  assert (∃ e, treat_repo (PDict r) = Raise e) as [er Her].
  { rewrite treat_repo_dict. destruct Hf as [Hf|Hf].
    - rewrite Hf. simpl. rewrite Hs. eauto.
    - destruct (treat_timestamp (default PNone (r !! "created_at"))); simpl; [|eauto].
      rewrite Hf. simpl. rewrite Hs. eauto. }
  split; [|split].
  - rewrite treat_user_detail_dict. destruct Hf as [Hf|Hf].
    + rewrite Hf. simpl. rewrite Hs. eauto.
    + destruct (treat_timestamp (default PNone (r !! "created_at"))); simpl; [|eauto].
      rewrite Hf. simpl. rewrite Hs. eauto.
  - unfold _treat_repositories_data. simpl.
    destruct (for_each_raises treat_repo rs (PDict r) er Hin Her) as [e' ->].
    simpl. eauto.
  - rewrite treat_repositories_data_single, treat_repo_dict, treat_user_detail_dict.
    intros [Hc|[c Hc]].
    + rewrite Hc. simpl. rewrite Hs. done.
    + destruct Hf as [Hf|Hf].
      * rewrite Hf in Hc. simpl in Hc. congruence.
      * rewrite Hc, Hf. simpl. rewrite Hs. done.
Qed.

Lemma malformed_timestamp_propagates_witness :
  (∃ e, _treat_user_detail (PDict {[ "updated_at" := PStr "yesterday" ]}) = Raise e) ∧
  (∃ e, _treat_repositories_data
          (PList [PDict ∅; PDict {[ "updated_at" := PStr "yesterday" ]}]) = Raise e) ∧
  (({[ "updated_at" := PStr "yesterday" ]} : gmap string pyval) !! "created_at"
     = Some (PStr "yesterday") ∨
   (∃ c, treat_timestamp
           (default PNone
              (({[ "updated_at" := PStr "yesterday" ]} : gmap string pyval)
                 !! "created_at")) = Ok c) →
   _treat_user_detail (PDict {[ "updated_at" := PStr "yesterday" ]})
     = Raise (Raised ValueErrorC) ∧
   _treat_repositories_data (PList [PDict {[ "updated_at" := PStr "yesterday" ]}])
     = Raise (Raised ValueErrorC)).
Proof.
  apply (malformed_timestamp_propagates
           {[ "updated_at" := PStr "yesterday" ]} "yesterday"
           [PDict ∅; PDict {[ "updated_at" := PStr "yesterday" ]}]).
  - split; [discriminate|]. split; [reflexivity|].
    eexists. vm_compute. reflexivity.
  - right. reflexivity.
  - apply elem_of_cons. right. apply elem_of_cons. left. reflexivity.
Defined.

(** ** The owner of a repository *)

(** The two timestamps are treated before the record is built (main.py
    195-203, then 205): a record without owner whose created_at is not a
    timestamp makes the repository mapper raise, and nothing is shaped. *)
Lemma absent_owner_can_raise :
  let r : gmap string pyval := {[ "created_at" := PStr "not-a-date" ]} in
  r !! "owner" = None ∧
  _treat_repositories_data (PList [PDict r]) = Raise (Raised ValueErrorC).
Proof. split; reflexivity. Qed.

(** For a record whose owner is null and whose created_at is not a
    timestamp, what the repository mapper raises is the parser's
    ValueError, of the class of the errors the client classifies, and not
    the AttributeError of the owner lookup. *)
Lemma null_owner_error_can_be_classified :
  let r : gmap string pyval :=
    <[ "owner" := PNone ]> {[ "created_at" := PStr "not-a-date" ]} in
  r !! "owner" = Some PNone ∧
  _treat_repositories_data (PList [PDict r]) = Raise (Raised ValueErrorC) ∧
  class_of (Raised ValueErrorC) = ValueErrorC.
Proof. repeat split; reflexivity. Qed.

Lemma treat_repositories_data_dict (r : gmap string pyval) :
  _treat_repositories_data (PList [PDict r])
  = (c ← treat_timestamp (default PNone (r !! "created_at"));
     u ← treat_timestamp (default PNone (r !! "updated_at"));
     o ← owner_login r;
     Ok (PList [PDict (repo_summary r c u o)])).
Proof.
  rewrite treat_repositories_data_single, treat_repo_dict.
  destruct (treat_timestamp (default PNone (r !! "created_at"))); [|reflexivity].
  destruct (treat_timestamp (default PNone (r !! "updated_at"))); [|reflexivity].
  destruct (owner_login r); reflexivity.
Qed.

(** C8, amended: for a repository record without owner field whose
    created_at and updated_at are treated without an exception, the
    repository mapper returns a shaped record whose owner is None and
    raises nothing; the owner lookup itself never raises for such a
    record, every record the mapper returns for it has owner None, and an
    exception the mapper raises for it is one raised for a timestamp.
    When the owner field holds an object, the shaped owner is that
    object's login, or None when it has none, in the same way. *)
Theorem absent_owner_defaults (r : gmap string pyval) :
  (r !! "owner" = None →
   owner_login r = Ok PNone ∧
   (∀ c u,
      treat_timestamp (default PNone (r !! "created_at")) = Ok c →
      treat_timestamp (default PNone (r !! "updated_at")) = Ok u →
      ∃ out, _treat_repositories_data (PList [PDict r]) = Ok (PList [PDict out]) ∧
             out !! "owner" = Some PNone) ∧
   (∀ out, _treat_repositories_data (PList [PDict r]) = Ok (PList [PDict out]) →
           out !! "owner" = Some PNone) ∧
   (∀ e, _treat_repositories_data (PList [PDict r]) = Raise e →
         treat_timestamp (default PNone (r !! "created_at")) = Raise e ∨
         treat_timestamp (default PNone (r !! "updated_at")) = Raise e)) ∧
  (∀ o : gmap string pyval, r !! "owner" = Some (PDict o) →
   owner_login r = Ok (default PNone (o !! "login")) ∧
   (∀ c u,
      treat_timestamp (default PNone (r !! "created_at")) = Ok c →
      treat_timestamp (default PNone (r !! "updated_at")) = Ok u →
      ∃ out, _treat_repositories_data (PList [PDict r]) = Ok (PList [PDict out]) ∧
             out !! "owner" = Some (default PNone (o !! "login"))) ∧
   (∀ out, _treat_repositories_data (PList [PDict r]) = Ok (PList [PDict out]) →
           out !! "owner" = Some (default PNone (o !! "login")))).
Proof.
  assert (∀ v, owner_login r = Ok v →
    (∀ c u,
       treat_timestamp (default PNone (r !! "created_at")) = Ok c →
       treat_timestamp (default PNone (r !! "updated_at")) = Ok u →
       ∃ out, _treat_repositories_data (PList [PDict r]) = Ok (PList [PDict out]) ∧
              out !! "owner" = Some v) ∧
    (∀ out, _treat_repositories_data (PList [PDict r]) = Ok (PList [PDict out]) →
            out !! "owner" = Some v) ∧
    (∀ e, _treat_repositories_data (PList [PDict r]) = Raise e →
          treat_timestamp (default PNone (r !! "created_at")) = Raise e ∨
          treat_timestamp (default PNone (r !! "updated_at")) = Raise e)) as Hgen.
  { intros v Hv. rewrite treat_repositories_data_dict, Hv. repeat split.
    - intros c u -> ->. exists (repo_summary r c u v). done.
    - intros out.
      destruct (treat_timestamp (default PNone (r !! "created_at"))); [|discriminate].
      destruct (treat_timestamp (default PNone (r !! "updated_at"))); [|discriminate].
      simpl. intros [= <-]. done.
    - intros e.
      destruct (treat_timestamp (default PNone (r !! "created_at"))); simpl;
        [|intros [= ->]; by left].
      destruct (treat_timestamp (default PNone (r !! "updated_at"))); simpl;
        [discriminate|intros [= ->]; by right]. }
  split.
  - intros Ho.
    assert (owner_login r = Ok PNone) as Hl by (unfold owner_login; by rewrite Ho).
    split; [exact Hl|]. by apply Hgen.
  - intros o Ho.
    assert (owner_login r = Ok (default PNone (o !! "login"))) as Hl
      by (unfold owner_login; by rewrite Ho).
    split; [exact Hl|]. destruct (Hgen _ Hl) as (H1 & H2 & _). by split.
Qed.

(** C10, amended: for a repository record whose owner key is bound to null
    the repository mapper raises and returns no shaped record, also for a
    list that holds such a record, where a missing key would give the
    owner None; when the record's created_at and updated_at are treated
    without an exception, what it raises is the AttributeError of the
    owner lookup, which is not the ValueError of the classified errors;
    otherwise it is an exception raised for a timestamp. *)
Theorem null_owner_raises (r : gmap string pyval) (rs : list pyval) :
  r !! "owner" = Some PNone →
  PDict r ∈ rs →
  owner_login r = Raise (Raised AttributeErrorC) ∧
  class_of (Raised AttributeErrorC) ≠ ValueErrorC ∧
  owner_login (delete "owner" r) = Ok PNone ∧
  (∃ e, _treat_repositories_data (PList [PDict r]) = Raise e) ∧
  (∃ e, _treat_repositories_data (PList rs) = Raise e) ∧
  (∀ c u,
     treat_timestamp (default PNone (r !! "created_at")) = Ok c →
     treat_timestamp (default PNone (r !! "updated_at")) = Ok u →
     _treat_repositories_data (PList [PDict r]) = Raise (Raised AttributeErrorC)) ∧
  (∀ e, _treat_repositories_data (PList [PDict r]) = Raise e →
        e = Raised AttributeErrorC ∨
        treat_timestamp (default PNone (r !! "created_at")) = Raise e ∨
        treat_timestamp (default PNone (r !! "updated_at")) = Raise e).
Proof.
  intros Ho Hin.
  assert (owner_login r = Raise (Raised AttributeErrorC)) as Hl
    by (unfold owner_login; by rewrite Ho).
  assert (∃ e, treat_repo (PDict r) = Raise e) as [er Her].
  { rewrite treat_repo_dict, Hl.
    destruct (treat_timestamp (default PNone (r !! "created_at"))); simpl; [|eauto].
    destruct (treat_timestamp (default PNone (r !! "updated_at"))); simpl; eauto. }
  split; [exact Hl|]. split; [discriminate|]. split.
  { unfold owner_login. rewrite lookup_delete_eq. reflexivity. }
  split; [|split; [|split]].
  - rewrite treat_repositories_data_single, Her. simpl. eauto.
  - unfold _treat_repositories_data. simpl.
    destruct (for_each_raises treat_repo rs (PDict r) er Hin Her) as [e' ->].
    simpl. eauto.
  - intros c u Hc Hu. rewrite treat_repositories_data_dict, Hc, Hu, Hl. reflexivity.
  - intros e. rewrite treat_repositories_data_dict, Hl.
    destruct (treat_timestamp (default PNone (r !! "created_at"))); simpl;
      [|intros [= ->]; by right; left].
    destruct (treat_timestamp (default PNone (r !! "updated_at"))); simpl;
      [intros [= <-]; by left|intros [= ->]; by right; right].
Qed.

Lemma null_owner_raises_witness :
  _treat_repositories_data (PList [PDict {[ "owner" := PNone ]}])
    = Raise (Raised AttributeErrorC) ∧
  (∃ e, _treat_repositories_data
          (PList [PDict {[ "owner" := PNone ]}; PDict ∅]) = Raise e).
Proof.
  destruct (null_owner_raises {[ "owner" := PNone ]}
              [PDict {[ "owner" := PNone ]}; PDict ∅])
    as (_ & _ & _ & _ & H2 & H3 & _).
  - reflexivity.
  - apply elem_of_cons. left. reflexivity.
  - split; [|exact H2]. exact (H3 PNone PNone eq_refl eq_refl).
Defined.

(** ** The request layer *)

Section ClientProperties.
Variable upstream : list request → request → outcome.
Variable self : GitHubAPIConsumer.

Lemma make_request_log endpoint params log :
  fst (_make_request upstream self endpoint params log)
  = (log ++ [mk_request (BASE_URL ++ endpoint) (headers self) params])%list.
Proof. reflexivity. Qed.

Lemma net_bind_lift_log {A B} (m : net A) (f : A → result B) log :
  fst (net_bind m (fun x => lift (f x)) log) = fst (m log).
Proof.
  unfold net_bind, lift. destruct (m log) as [log' [a|e]]; reflexivity.
Qed.

Lemma net_bind_lift_result {A B} (m : net A) (f : A → result B) log :
  snd (net_bind m (fun x => lift (f x)) log) = (snd (m log) ≫= f).
Proof.
  unfold net_bind, lift. destruct (m log) as [log' [a|e]]; reflexivity.
Qed.

(** C1: a sort outside the list of its operation makes search_users and
    search_repositories raise the ValueError that names the valid sorts,
    with the log of requests left as it was: nothing is sent. *)
Theorem invalid_sort_rejected (query su sr order : string) (per_page : Z)
    (log : list request) :
  su ∉ user_valid_sorts →
  sr ∉ repo_valid_sorts →
  search_users upstream self query su order per_page log
  = (log, Raise (ValueError
       "Sort inválido. Use: followers, repositories, joined, best-match")) ∧
  search_repositories upstream self query sr order per_page log
  = (log, Raise (ValueError
       "Sort inválido. Use: stars, forks, help-wanted-issues, updated, best-match")).
Proof.
  intros Hu Hr. unfold search_users, search_repositories.
  rewrite !decide_False by assumption. split; reflexivity.
Qed.

(** C3: get_users, search_users and search_repositories send one request
    whose per_page parameter is 100 when the argument exceeds 100 and the
    argument itself otherwise, zero and negative numbers included; that is
    min(per_page, 100). *)
Theorem per_page_clamped (since : Z) (query su sr order : string)
    (per_page : Z) (log : list request) :
  su ∈ user_valid_sorts →
  sr ∈ repo_valid_sorts →
  let sent := PInt (if (100 <? per_page)%Z then 100%Z else per_page) in
  sent = PInt (Z.min per_page 100) ∧
  (∃ ps : gmap string pyval,
     fst (get_users upstream self since per_page log)
     = (log ++ [mk_request (BASE_URL ++ "/users") (headers self) (Some ps)])%list ∧
     ps !! "per_page" = Some sent) ∧
  (∃ ps : gmap string pyval,
     fst (search_users upstream self query su order per_page log)
     = (log ++ [mk_request (BASE_URL ++ "/search/users") (headers self) (Some ps)])%list ∧
     ps !! "per_page" = Some sent) ∧
  (∃ ps : gmap string pyval,
     fst (search_repositories upstream self query sr order per_page log)
     = (log ++ [mk_request (BASE_URL ++ "/search/repositories") (headers self)
                  (Some ps)])%list ∧
     ps !! "per_page" = Some sent).
Proof.
  intros Hu Hr sent.
  assert (sent = PInt (Z.min per_page 100)) as Hs.
  { unfold sent. f_equal. destruct (Z.ltb_spec 100 per_page); lia. }
  split; [exact Hs|]. rewrite Hs. clear sent Hs.
  unfold get_users, search_users, search_repositories.
  rewrite !decide_True by assumption.
  repeat split; eexists;
    (split; [rewrite net_bind_lift_log, make_request_log; reflexivity|reflexivity]).
Qed.
Lemma transport_message_distinct (d endpoint code detail : string) :
  "Erro na requisição: " ++ d ≠ "Recurso não encontrado: " ++ endpoint ∧
  "Erro na requisição: " ++ d ≠ "Rate limit excedido. Use um token de autenticação." ∧
  "Erro na requisição: " ++ d ≠ "Token de autenticação inválido" ∧
  "Erro na requisição: " ++ d ≠ "Erro HTTP " ++ code ++ ": " ++ detail.
Proof.
  repeat split; intros H; cbv in H; discriminate H.
Qed.

(** C2, amended: every failure of the request layer is a ValueError told
    apart by its message, and no payload is returned with it: a 404
    response gives the message that ends with the requested endpoint; a
    403 response the rate-limit message that advises a token, whatever
    was asked; a 401 response the invalid-token message; any other status
    from 400 to 599 a message that holds the status code in decimal; a
    failure of the network before any status a message that differs from
    all of these. *)
Theorem request_failures_classified (endpoint : string)
    (params : option (gmap string pyval)) (log : list request) :
  let req := mk_request (BASE_URL ++ endpoint) (headers self) params in
  let res := snd (_make_request upstream self endpoint params log) in
  (∀ r, upstream log req = Responded r →
     (status_code r = 404%Z →
      res = Raise (ValueError ("Recurso não encontrado: " ++ endpoint))) ∧
     (status_code r = 403%Z →
      res = Raise (ValueError "Rate limit excedido. Use um token de autenticação.")) ∧
     (status_code r = 401%Z →
      res = Raise (ValueError "Token de autenticação inválido")) ∧
     ((400 ≤ status_code r < 600)%Z →
      status_code r ≠ 404%Z → status_code r ≠ 403%Z → status_code r ≠ 401%Z →
      ∃ detail, res = Raise (ValueError
        ("Erro HTTP " ++ pretty (status_code r) ++ ": " ++ detail)))) ∧
  (∀ d, upstream log req = Failed d →
     res = Raise (ValueError ("Erro na requisição: " ++ d)) ∧
     ∀ endpoint' code detail,
       "Erro na requisição: " ++ d ≠ "Recurso não encontrado: " ++ endpoint' ∧
       "Erro na requisição: " ++ d
         ≠ "Rate limit excedido. Use um token de autenticação." ∧
       "Erro na requisição: " ++ d ≠ "Token de autenticação inválido" ∧
       "Erro na requisição: " ++ d ≠ "Erro HTTP " ++ code ++ ": " ++ detail).
Proof.
  intros req res. subst res. unfold _make_request, requests_get.
  fold req. cbn [snd]. split.
  - intros r ->. unfold raise_for_status. repeat split.
    + intros ->. reflexivity.
    + intros ->. reflexivity.
    + intros ->. reflexivity.
    + intros Hr H404 H403 H401.
      apply Z.eqb_neq in H404, H403, H401. rewrite H404, H403, H401.
      destruct (decide (400 ≤ status_code r < 500)%Z) as [Hc|Hc].
      * rewrite (bool_decide_eq_true_2 _ Hc). eauto.
      * rewrite (bool_decide_eq_false_2 _ Hc).
        rewrite bool_decide_eq_true_2 by lia. eauto.
  - intros d ->. split; [reflexivity|].
    intros. apply transport_message_distinct.
Qed.
End ClientProperties.

Lemma invalid_sort_rejected_witness :
  search_users (fun _ _ => Failed "unreachable") (__init__ None)
    "location:brazil" "stars" "desc" 5 []
  = ([], Raise (ValueError
       "Sort inválido. Use: followers, repositories, joined, best-match")) ∧
  search_repositories (fun _ _ => Failed "unreachable") (__init__ None)
    "language:python" "followers" "desc" 5 []
  = ([], Raise (ValueError
       "Sort inválido. Use: stars, forks, help-wanted-issues, updated, best-match")).
Proof.
  apply (invalid_sort_rejected (fun _ _ => Failed "unreachable") (__init__ None)
           "location:brazil" "stars" "followers" "desc" 5 []).
  - apply (bool_decide_unpack _). vm_compute. exact I.
  - apply (bool_decide_unpack _). vm_compute. exact I.
Defined.

(** A 304 response is neither 2xx nor an error for [raise_for_status]:
    with a JSON body the request layer returns the payload, and with a body
    that is not JSON it raises the message of a failed request, the status
    code not in it. *)
Lemma not_modified_not_classified :
  let answer body : list request → request → outcome := fun _ _ =>
    Responded (mk_response 304 "Not Modified" "https://api.github.com/users" body) in
  snd (_make_request (answer (inl (PDict ∅))) (__init__ None) "/users" None [])
  = Ok (PDict ∅) ∧
  snd (_make_request (answer (inr "Expecting value: line 1 column 1 (char 0)"))
         (__init__ None) "/users" None [])
  = Raise (ValueError "Erro na requisição: Expecting value: line 1 column 1 (char 0)").
Proof. split; reflexivity. Qed.

(** ** Search results and repeated runs *)

Section ClientResults.
Variable upstream : list request → request → outcome.
Variable self : GitHubAPIConsumer.

Lemma make_request_result endpoint params log r payload :
  upstream log (mk_request (BASE_URL ++ endpoint) (headers self) params)
    = Responded r →
  raise_for_status r = None →
  body r = inl payload →
  snd (_make_request upstream self endpoint params log) = Ok payload.
Proof.
  intros Hr Hs Hb. unfold _make_request, requests_get. cbn [snd].
  rewrite Hr, Hs, Hb. reflexivity.
Qed.


Lemma make_request_same endpoint params log1 log2 :
  (∀ req, upstream log1 req = upstream log2 req) →
  snd (_make_request upstream self endpoint params log1)
  = snd (_make_request upstream self endpoint params log2).
Proof.
  intros H. unfold _make_request, requests_get. cbn [snd]. rewrite H. reflexivity.
Qed.

(** C9: against an upstream whose answer to a request does not depend on
    what it was sent before, each of get_users, search_users,
    get_user_details and search_repositories, run twice with the same
    arguments, gives the same result both times, be it a shaped value or
    an exception. *)
Theorem read_operations_deterministic (since per_page : Z)
    (query sort order username : string) (log : list request) :
  (∀ log1 log2 req, upstream log1 req = upstream log2 req) →
  (let '(first, second) := twice (get_users upstream self since per_page) log in
   first = second) ∧
  (let '(first, second) :=
     twice (search_users upstream self query sort order per_page) log in
   first = second) ∧
  (let '(first, second) := twice (get_user_details upstream self username) log in
   first = second) ∧
  (let '(first, second) :=
     twice (search_repositories upstream self query sort order per_page) log in
   first = second).
Proof.
  intros H. unfold twice, get_users, search_users, get_user_details,
    search_repositories.
  repeat split.
  - rewrite !net_bind_lift_result. f_equal. apply make_request_same. auto.
  - destruct (decide (sort ∈ user_valid_sorts)); [|reflexivity].
    rewrite !net_bind_lift_result. f_equal. apply make_request_same. auto.
  - rewrite !net_bind_lift_result. f_equal. apply make_request_same. auto.
  - destruct (decide (sort ∈ repo_valid_sorts)); [|reflexivity].
    rewrite !net_bind_lift_result. f_equal. apply make_request_same. auto.
Qed.
End ClientResults.

(** ** The scenarios of the specification *)

Lemma per_page_clamped_witness :
  ∃ ps : gmap string pyval,
    fst (search_users (fun _ _ => Failed "no route to host") (__init__ None)
           "location:brazil" "followers" "desc" 250 [])
    = [mk_request "https://api.github.com/search/users"
         (headers (__init__ None)) (Some ps)] ∧
    ps !! "per_page" = Some (PInt 100).
Proof.
  destruct (per_page_clamped (fun _ _ => Failed "no route to host") (__init__ None)
              0 "location:brazil" "followers" "stars" "desc" 250 [])
    as (_ & _ & H & _).
  - apply (bool_decide_unpack _). vm_compute. exact I.
  - apply (bool_decide_unpack _). vm_compute. exact I.
  - exact H.
Defined.


Lemma read_operations_deterministic_witness :
  let answer : list request → request → outcome := fun _ _ =>
    Responded (mk_response 404 "Not Found"
                 "https://api.github.com/users/doesnotexist" (inr "")) in
  let '(first, second) :=
    twice (get_user_details answer (__init__ None) "doesnotexist") [] in
  first = second.
Proof.
  intros answer.
  destruct (read_operations_deterministic answer (__init__ None) 0 30
              "location:brazil" "followers" "desc" "doesnotexist" [])
    as (_ & _ & H & _).
  - reflexivity.
  - exact H.
Defined.

Example user_not_found :
  snd (get_user_details
         (fun _ _ => Responded (mk_response 404 "Not Found"
                       "https://api.github.com/users/doesnotexist" (inr "")))
         (__init__ None) "doesnotexist" [])
  = Raise (ValueError "Recurso não encontrado: /users/doesnotexist").
Proof. reflexivity. Qed.

Example search_rate_limited :
  snd (search_repositories
         (fun _ _ => Responded (mk_response 403 "Forbidden"
                       "https://api.github.com/search/repositories" (inr "")))
         (__init__ None) "language:python" "stars" "desc" 5 [])
  = Raise (ValueError "Rate limit excedido. Use um token de autenticação.").
Proof. reflexivity. Qed.

(** * Further properties of the client *)

(** ** The headers of a client *)

(** A client always carries the Accept and User-Agent headers of the
    source; it carries an Authorization header, the token after the word
    token and a blank, exactly when it was built with a non-empty token;
    it carries no other header. *)
Theorem init_headers (token : option string) :
  let hs := headers (__init__ token) in
  hs !! "Accept" = Some "application/vnd.github.v3+json" ∧
  hs !! "User-Agent" = Some "GitHub-API-Consumer" ∧
  (∀ t, token = Some t → t ≠ "" → hs !! "Authorization" = Some ("token " ++ t)) ∧
  (token = None ∨ token = Some "" → hs !! "Authorization" = None) ∧
  (∀ k, k ≠ "Accept" → k ≠ "User-Agent" → k ≠ "Authorization" → hs !! k = None).
Proof.
  intros hs. subst hs. destruct token as [[|c t]|]; cbn [__init__ headers].
  - repeat split; try reflexivity; try (intros t [= <-]; congruence).
    intros k H1 H2 _. cbn [list_to_map foldr uncurry fst snd].
    rewrite !lookup_insert_ne by congruence. apply lookup_empty.
  - repeat split; try reflexivity.
    + intros t' [= <-] _. apply lookup_insert_eq.
    + intros [|]; discriminate.
    + intros k H1 H2 H3. cbn [list_to_map foldr uncurry fst snd].
      rewrite !lookup_insert_ne by congruence. apply lookup_empty.
  - repeat split; try reflexivity; try discriminate.
    intros k H1 H2 _. cbn [list_to_map foldr uncurry fst snd].
    rewrite !lookup_insert_ne by congruence. apply lookup_empty.
Qed.

(** ** What the operations send *)

Section ClientExtras.
Variable upstream : list request → request → outcome.
Variable self : GitHubAPIConsumer.

(** Whatever the upstream answers and whatever the mapper then does, each
    operation sends exactly one request, with the headers of the client:
    get_users to /users with since as given and per_page; get_user_details
    to /users/ followed by the user name as it is typed, without
    parameters; a search with a valid sort to its search path, with the
    query, the sort and the order as given, the order not checked. *)
Theorem requests_sent (since per_page : Z) (query su sr order username : string)
    (log : list request) :
  fst (get_users upstream self since per_page log)
  = (log ++ [mk_request "https://api.github.com/users" (headers self)
       (Some (list_to_map [("since", PInt since);
                           ("per_page", PInt (Z.min per_page 100))]))])%list ∧
  fst (get_user_details upstream self username log)
  = (log ++ [mk_request ("https://api.github.com/users/" ++ username)
       (headers self) None])%list ∧
  (su ∈ user_valid_sorts →
   fst (search_users upstream self query su order per_page log)
   = (log ++ [mk_request "https://api.github.com/search/users" (headers self)
        (Some (list_to_map [("q", PStr query); ("sort", PStr su);
                            ("order", PStr order);
                            ("per_page", PInt (Z.min per_page 100))]))])%list) ∧
  (sr ∈ repo_valid_sorts →
   fst (search_repositories upstream self query sr order per_page log)
   = (log ++ [mk_request "https://api.github.com/search/repositories" (headers self)
        (Some (list_to_map [("q", PStr query); ("sort", PStr sr);
                            ("order", PStr order);
                            ("per_page", PInt (Z.min per_page 100))]))])%list).
Proof.
  unfold get_users, get_user_details, search_users, search_repositories.
  repeat split.
  - rewrite net_bind_lift_log. reflexivity.
  - rewrite net_bind_lift_log. reflexivity.
  - intros Hs. rewrite decide_True by assumption.
    rewrite net_bind_lift_log. reflexivity.
  - intros Hs. rewrite decide_True by assumption.
    rewrite net_bind_lift_log. reflexivity.
Qed.

Lemma raise_for_status_None r :
  raise_for_status r = None ↔ ¬ (400 ≤ status_code r < 600)%Z.
Proof.
  unfold raise_for_status.
  destruct (decide (400 ≤ status_code r < 500)%Z) as [H4|H4].
  { rewrite (bool_decide_eq_true_2 _ H4). split; [discriminate|lia]. }
  rewrite (bool_decide_eq_false_2 _ H4).
  destruct (decide (500 ≤ status_code r < 600)%Z) as [H5|H5].
  { rewrite (bool_decide_eq_true_2 _ H5). split; [discriminate|lia]. }
  rewrite (bool_decide_eq_false_2 _ H5). split; [lia|reflexivity].
Qed.

(** The request layer returns a payload exactly when the upstream
    responded with a status outside 400..599 and a body that is JSON, and
    the payload is that body as it is; everything it raises is a
    ValueError. *)
Theorem make_request_returns_iff (endpoint : string)
    (params : option (gmap string pyval)) (log : list request) :
  let req := mk_request (BASE_URL ++ endpoint) (headers self) params in
  let res := snd (_make_request upstream self endpoint params log) in
  (∀ payload,
     res = Ok payload ↔
     ∃ r, upstream log req = Responded r ∧
          ¬ (400 ≤ status_code r < 600)%Z ∧ body r = inl payload) ∧
  (∀ e, res = Raise e → ∃ msg, e = ValueError msg).
Proof.
  intros req res. subst res. unfold _make_request, requests_get. fold req.
  cbn [snd]. split.
  - intros payload. split.
    + destruct (upstream log req) as [r|d]; [|discriminate].
      destruct (raise_for_status r) as [m|] eqn:Hs.
      * repeat case_match; discriminate.
      * destruct (body r) as [v|d] eqn:Hb; [|discriminate].
        intros [= ->]. exists r. by rewrite <- raise_for_status_None.
    + intros (r & -> & Hs & Hb). apply raise_for_status_None in Hs.
      rewrite Hs, Hb. reflexivity.
  - intros e. destruct (upstream log req) as [r|d].
    + destruct (raise_for_status r); repeat case_match; intros [= <-]; eauto.
    + intros [= <-]. eauto.
Qed.

(** A failure of the upstream comes out of every operation as the request
    layer raised it, nothing being shaped: a network failure as the
    request-failure ValueError with the failure's text, a 404 response as
    the not-found ValueError that names the path of the operation, the user
    name in it as typed. *)
Theorem upstream_failure_propagates (since per_page : Z)
    (query su sr order username : string) (log : list request) (o : outcome) :
  su ∈ user_valid_sorts →
  sr ∈ repo_valid_sorts →
  (∀ req, upstream log req = o) →
  (∀ d, o = Failed d →
     let e := Raise (ValueError ("Erro na requisição: " ++ d)) in
     snd (get_users upstream self since per_page log) = e ∧
     snd (get_user_details upstream self username log) = e ∧
     snd (search_users upstream self query su order per_page log) = e ∧
     snd (search_repositories upstream self query sr order per_page log) = e) ∧
  (∀ r, o = Responded r → status_code r = 404%Z →
     let e path := Raise (ValueError ("Recurso não encontrado: " ++ path)) in
     snd (get_users upstream self since per_page log) = e "/users" ∧
     snd (get_user_details upstream self username log) = e ("/users/" ++ username) ∧
     snd (search_users upstream self query su order per_page log) = e "/search/users" ∧
     snd (search_repositories upstream self query sr order per_page log)
       = e "/search/repositories").
Proof.
  intros Hu Hr Hup.
  unfold get_users, get_user_details, search_users, search_repositories.
  rewrite !decide_True by assumption. rewrite !net_bind_lift_result.
  unfold _make_request, requests_get. cbn [snd]. rewrite !Hup.
  split.
  - intros d ->. cbn zeta. repeat split; reflexivity.
  - intros r -> Hs. cbn zeta. unfold raise_for_status. rewrite Hs.
    repeat split; reflexivity.
Qed.

(** A payload that is not an object makes get_user_details and the two
    searches raise an AttributeError; an items key bound to null makes a
    search raise a TypeError, where a missing items key gives a result
    with no items. *)
Theorem odd_payloads (query su sr order username : string) (per_page : Z)
    (log : list request) (r : response) (payload : pyval) :
  su ∈ user_valid_sorts →
  sr ∈ repo_valid_sorts →
  (∀ req, upstream log req = Responded r) →
  ¬ (400 ≤ status_code r < 600)%Z →
  body r = inl payload →
  (is_record payload = false →
   snd (get_user_details upstream self username log) = Raise (Raised AttributeErrorC) ∧
   snd (search_users upstream self query su order per_page log)
     = Raise (Raised AttributeErrorC) ∧
   snd (search_repositories upstream self query sr order per_page log)
     = Raise (Raised AttributeErrorC)) ∧
  (∀ d : gmap string pyval, payload = PDict d → d !! "items" = Some PNone →
   snd (search_users upstream self query su order per_page log)
     = Raise (Raised TypeErrorC) ∧
   snd (search_repositories upstream self query sr order per_page log)
     = Raise (Raised TypeErrorC)) ∧
  (∀ d : gmap string pyval, payload = PDict d → d !! "items" = None →
   snd (search_users upstream self query su order per_page log)
     = Ok (PDict (search_result "users" d [])) ∧
   snd (search_repositories upstream self query sr order per_page log)
     = Ok (PDict (search_result "repositories" d []))).
Proof.
  intros Hu Hr Hup Hs Hb. apply raise_for_status_None in Hs.
  unfold get_user_details, search_users, search_repositories.
  rewrite !decide_True by assumption. rewrite !net_bind_lift_result.
  rewrite !(make_request_result _ _ _ _ _ r payload) by auto.
  split; [|split].
  - intros Hp. destruct payload; try discriminate; repeat split; reflexivity.
  - intros d -> Hi. cbn. rewrite Hi. split; reflexivity.
  - intros d -> Hi. cbn. rewrite Hi. split; reflexivity.
Qed.
End ClientExtras.

(** ** The mappers on lists and on values that are not lists *)

Lemma treat_user_not_record v :
  is_record v = false → treat_user v = Raise (Raised AttributeErrorC).
Proof. destruct v; try discriminate; reflexivity. Qed.

Lemma treat_repo_not_record v :
  is_record v = false → treat_repo v = Raise (Raised AttributeErrorC).
Proof. destruct v; try discriminate; reflexivity. Qed.

Lemma treat_user_record v :
  is_record v = true → ∃ out, treat_user v = Ok out.
Proof. destruct v; try discriminate. intros _. eexists. apply treat_user_dict. Qed.

Lemma for_each_length {A B} (f : A → result B) xs ys :
  for_each f xs = Ok ys → List.length ys = List.length xs.
Proof.
  intros H. apply for_each_Forall2 in H. symmetry. by eapply Forall2_length.
Qed.

(** The user-summary mapper returns for a list exactly when every element
    is an object, with as many shaped records as elements; when some
    element is not an object it raises an AttributeError and returns
    nothing, not even the records shaped before that element. *)
Theorem users_mapper_all_or_nothing (l : list pyval) :
  (forallb is_record l = true →
   ∃ outs, _treat_users_data (PList l) = Ok (PList outs) ∧
           List.length outs = List.length l) ∧
  (forallb is_record l = false →
   _treat_users_data (PList l) = Raise (Raised AttributeErrorC)).
Proof.
  unfold _treat_users_data. cbn [py_iter mbind result_bind].
  induction l as [|x l [IHt IHf]]; cbn [forallb for_each].
  - split; [|discriminate]. intros _. exists []. done.
  - split.
    + intros [Hx Hl]%andb_prop. destruct (treat_user_record x Hx) as [o Ho].
      destruct (IHt Hl) as (outs & Houts & Hlen). rewrite Ho. cbn.
      destruct (for_each treat_user l) as [ys|e]; [|discriminate].
      cbn in *. injection Houts as <-. exists (o :: ys). cbn. by rewrite Hlen.
    + intros H. destruct (is_record x) eqn:Hx.
      * destruct (treat_user_record x Hx) as [o ->]. cbn.
        specialize (IHf H). destruct (for_each treat_user l); [discriminate|].
        cbn in *. congruence.
      * by rewrite (treat_user_not_record x Hx).
Qed.

(** Given something that is not a list, the user-summary mapper raises a
    TypeError for null, a boolean or a number; for an object or a text it
    returns the empty list when that is empty and raises an AttributeError
    otherwise, as iterating it yields its keys or its characters. *)
Theorem users_mapper_not_a_list :
  _treat_users_data PNone = Raise (Raised TypeErrorC) ∧
  (∀ b, _treat_users_data (PBool b) = Raise (Raised TypeErrorC)) ∧
  (∀ n, _treat_users_data (PInt n) = Raise (Raised TypeErrorC)) ∧
  (∀ d : gmap string pyval,
     _treat_users_data (PDict d)
     = if bool_decide (size d = 0) then Ok (PList [])
       else Raise (Raised AttributeErrorC)) ∧
  (∀ s,
     _treat_users_data (PStr s)
     = if String.eqb s "" then Ok (PList []) else Raise (Raised AttributeErrorC)).
Proof.
  repeat split; try reflexivity.
  - intros d. unfold _treat_users_data. cbn [py_iter mbind result_bind].
    case_bool_decide as Hd.
    + apply map_size_empty_inv in Hd. subst d. rewrite map_to_list_empty. reflexivity.
    + destruct (map_to_list d) as [|[k v] kvs] eqn:Hl.
      * apply map_to_list_empty_iff in Hl. subst d. by rewrite map_size_empty in Hd.
      * reflexivity.
  - intros [|c s]; reflexivity.
Qed.

Lemma for_each_app {A B} (f : A → result B) (xs ys : list A) :
  for_each f (xs ++ ys)%list
  = (a ← for_each f xs; b ← for_each f ys; Ok (a ++ b)%list).
Proof.
  induction xs as [|x xs IH]; cbn [for_each app].
  - cbn. destruct (for_each f ys); reflexivity.
  - destruct (f x) as [y|e]; cbn; [|reflexivity].
    rewrite IH. destruct (for_each f xs) as [a|e]; cbn; [|reflexivity].
    destruct (for_each f ys); reflexivity.
Qed.

(** Shaping two lists one after the other and joining the results is
    shaping the joined list, for users and for repositories: the joined
    list is shaped exactly when both lists are, into the two results
    joined in order, and an exception raised for the first list is the
    one raised for the joined list. *)
Theorem mappers_on_joined_lists (l1 l2 : list pyval) :
  (∀ outs,
     _treat_users_data (PList (l1 ++ l2)%list) = Ok (PList outs) ↔
     ∃ o1 o2, outs = (o1 ++ o2)%list ∧
              _treat_users_data (PList l1) = Ok (PList o1) ∧
              _treat_users_data (PList l2) = Ok (PList o2)) ∧
  (∀ e, _treat_users_data (PList l1) = Raise e →
        _treat_users_data (PList (l1 ++ l2)%list) = Raise e) ∧
  (∀ outs,
     _treat_repositories_data (PList (l1 ++ l2)%list) = Ok (PList outs) ↔
     ∃ o1 o2, outs = (o1 ++ o2)%list ∧
              _treat_repositories_data (PList l1) = Ok (PList o1) ∧
              _treat_repositories_data (PList l2) = Ok (PList o2)) ∧
  (∀ e, _treat_repositories_data (PList l1) = Raise e →
        _treat_repositories_data (PList (l1 ++ l2)%list) = Raise e).
Proof.
  unfold _treat_users_data, _treat_repositories_data.
  cbn [py_iter mbind result_bind]. rewrite !for_each_app.
  repeat split.
  - destruct (for_each treat_user l1) as [a|e]; cbn; [|discriminate].
    destruct (for_each treat_user l2) as [b|e]; cbn; [|discriminate].
    intros [= <-]. by exists a, b.
  - intros (o1 & o2 & -> & H1 & H2).
    destruct (for_each treat_user l1) as [a|e]; [|discriminate].
    destruct (for_each treat_user l2) as [b|e]; [|discriminate].
    cbn in *. congruence.
  - intros e. destruct (for_each treat_user l1); cbn; [discriminate|]. done.
  - destruct (for_each treat_repo l1) as [a|e]; cbn; [|discriminate].
    destruct (for_each treat_repo l2) as [b|e]; cbn; [|discriminate].
    intros [= <-]. by exists a, b.
  - intros (o1 & o2 & -> & H1 & H2).
    destruct (for_each treat_repo l1) as [a|e]; [|discriminate].
    destruct (for_each treat_repo l2) as [b|e]; [|discriminate].
    cbn in *. congruence.
  - intros e. destruct (for_each treat_repo l1); cbn; [discriminate|]. done.
Qed.

(** ** The fields of a shaped detail and of a shaped repository *)

Lemma user_detail_dom (user : gmap string pyval) (c u : pyval) :
  dom (user_detail user c u)
  = ({[ "id"; "login"; "name"; "company"; "blog"; "location"; "email"; "bio";
        "public_repos"; "public_gists"; "followers"; "following";
        "created_at"; "updated_at"; "avatar_url"; "url" ]} : gset string).
Proof. unfold user_detail. rewrite dom_list_to_map_L. reflexivity. Qed.

Lemma repo_summary_dom (repo : gmap string pyval) (c u o : pyval) :
  dom (repo_summary repo c u o)
  = ({[ "id"; "name"; "full_name"; "owner"; "description"; "language"; "stars";
        "forks"; "watchers"; "open_issues"; "created_at"; "updated_at"; "url";
        "is_fork"; "is_archived" ]} : gset string).
Proof. unfold repo_summary. rewrite dom_list_to_map_L. reflexivity. Qed.

(** The detail mapper, once the two timestamps of a record are treated,
    returns a dictionary with exactly sixteen keys: the eight plain fields
    and avatar_url under their own names and url from html_url, each None
    when the record lacks it; the four counters, each 0 when the record
    lacks it; and the two treated timestamps.  A key the record binds to
    null stays null, counters included. *)
Theorem user_detail_fields (user : gmap string pyval) (c u : pyval) :
  treat_timestamp (default PNone (user !! "created_at")) = Ok c →
  treat_timestamp (default PNone (user !! "updated_at")) = Ok u →
  ∃ out : gmap string pyval,
    _treat_user_detail (PDict user) = Ok (PDict out) ∧
    dom out
    = ({[ "id"; "login"; "name"; "company"; "blog"; "location"; "email"; "bio";
          "public_repos"; "public_gists"; "followers"; "following";
          "created_at"; "updated_at"; "avatar_url"; "url" ]} : gset string) ∧
    Forall (fun k => out !! k = Some (default PNone (user !! k)))
      ["id"; "login"; "name"; "company"; "blog"; "location"; "email"; "bio";
       "avatar_url"] ∧
    out !! "url" = Some (default PNone (user !! "html_url")) ∧
    Forall (fun k => out !! k = Some (default (PInt 0) (user !! k)))
      ["public_repos"; "public_gists"; "followers"; "following"] ∧
    out !! "created_at" = Some c ∧ out !! "updated_at" = Some u.
Proof.
  intros Hc Hu. exists (user_detail user c u).
  rewrite treat_user_detail_dict, Hc, Hu.
  split; [reflexivity|]. split; [apply user_detail_dom|].
  repeat split; repeat constructor.
Qed.

Lemma user_detail_fields_witness :
  ∃ out : gmap string pyval,
    _treat_user_detail (PDict {[ "followers" := PNone ]}) = Ok (PDict out) ∧
    out !! "followers" = Some PNone ∧ out !! "following" = Some (PInt 0).
Proof.
  destruct (user_detail_fields {[ "followers" := PNone ]} PNone PNone)
    as (out & Ho & _ & _ & _ & Hn & _); [reflexivity|reflexivity|].
  exists out. split; [exact Ho|].
  apply Forall_cons in Hn as [_ Hn]. apply Forall_cons in Hn as [_ Hn].
  apply Forall_cons in Hn as [H1 Hn]. apply Forall_cons in Hn as [H2 _].
  split; [exact H1|exact H2].
Defined.

(** The repository mapper, once the two timestamps of a record are
    treated and its owner looked up, returns for it a dictionary with
    exactly fifteen keys: id, name, full_name, description and language
    under their own names and url from html_url, each None when the record
    lacks it; stars, forks, watchers and open_issues from stargazers_count,
    forks_count, watchers_count and open_issues_count, each 0 when lacking;
    is_fork and is_archived from fork and archived, each False when
    lacking; the owner's login and the two treated timestamps. *)
Theorem repo_summary_fields (repo : gmap string pyval) (c u o : pyval) :
  treat_timestamp (default PNone (repo !! "created_at")) = Ok c →
  treat_timestamp (default PNone (repo !! "updated_at")) = Ok u →
  owner_login repo = Ok o →
  ∃ out : gmap string pyval,
    _treat_repositories_data (PList [PDict repo]) = Ok (PList [PDict out]) ∧
    dom out
    = ({[ "id"; "name"; "full_name"; "owner"; "description"; "language"; "stars";
          "forks"; "watchers"; "open_issues"; "created_at"; "updated_at"; "url";
          "is_fork"; "is_archived" ]} : gset string) ∧
    Forall (fun k => out !! k = Some (default PNone (repo !! k)))
      ["id"; "name"; "full_name"; "description"; "language"] ∧
    out !! "url" = Some (default PNone (repo !! "html_url")) ∧
    Forall (fun '(k, raw) => out !! k = Some (default (PInt 0) (repo !! raw)))
      [("stars", "stargazers_count"); ("forks", "forks_count");
       ("watchers", "watchers_count"); ("open_issues", "open_issues_count")] ∧
    Forall (fun '(k, raw) => out !! k = Some (default (PBool false) (repo !! raw)))
      [("is_fork", "fork"); ("is_archived", "archived")] ∧
    out !! "owner" = Some o ∧
    out !! "created_at" = Some c ∧ out !! "updated_at" = Some u.
Proof.
  intros Hc Hu Ho. exists (repo_summary repo c u o).
  rewrite treat_repositories_data_dict, Hc, Hu, Ho.
  split; [reflexivity|]. split; [apply repo_summary_dom|].
  repeat split; repeat constructor.
Qed.

Lemma repo_summary_fields_witness :
  ∃ out : gmap string pyval,
    _treat_repositories_data (PList [PDict {[ "stargazers_count" := PInt 7 ]}])
      = Ok (PList [PDict out]) ∧
    out !! "url" = Some PNone ∧ out !! "owner" = Some PNone.
Proof.
  destruct (repo_summary_fields {[ "stargazers_count" := PInt 7 ]}
              PNone PNone PNone)
    as (out & Ho & _ & _ & Hurl & _ & _ & Hown & _);
    [reflexivity|reflexivity|reflexivity|].
  exists out. split; [exact Ho|]. split; [exact Hurl|exact Hown].
Defined.

(** ** The timestamps the mappers emit *)

Lemma strptime_valid v dt : strptime v = Ok dt → valid_datetime dt = true.
Proof.
  unfold strptime. repeat case_match; try discriminate. by intros [= <-].
Qed.

Lemma strptime_is_text v dt : strptime v = Ok dt → ∃ s, v = PStr s.
Proof. destruct v; try discriminate. eauto. Qed.

Lemma treat_timestamp_Ok v w :
  treat_timestamp v = Ok w →
  (truthy v = false ∧ w = v) ∨
  (∃ s dt, v = PStr s ∧ strptime (PStr s) = Ok dt ∧ w = PStr (strftime dt)).
Proof.
  unfold treat_timestamp. destruct (truthy v) eqn:Ht.
  - destruct (strptime v) as [dt|e] eqn:Hp; [|discriminate].
    cbn. intros [= <-]. right.
    destruct (strptime_is_text v dt Hp) as [s ->]. eauto.
  - intros [= <-]. by left.
Qed.

(** For a record whose created_at and updated_at, where they are texts,
    are ASCII texts: whatever a mapper returns under created_at or
    updated_at is either the raw value, which is then falsy (a missing key
    counting as None), or the text that strftime prints (day, month, hour,
    minute and second on two digits, the year in decimal) for the valid
    calendar date and time that the raw text parses to; a truthy value is
    never handed on as it came. *)
Theorem emitted_timestamps (r out : gmap string pyval) :
  Forall (fun k => ∀ s, r !! k = Some (PStr s) → ascii_text s = true)
    ["created_at"; "updated_at"] →
  _treat_user_detail (PDict r) = Ok (PDict out) ∨
  _treat_repositories_data (PList [PDict r]) = Ok (PList [PDict out]) →
  Forall (fun k =>
    let raw := default PNone (r !! k) in
    (truthy raw = false ∧ out !! k = Some raw) ∨
    (∃ s dt, raw = PStr s ∧ strptime (PStr s) = Ok dt ∧
             valid_datetime dt = true ∧
             out !! k = Some (PStr
               (pad2 (day dt) ++ "/" ++ pad2 (month dt) ++ "/" ++
                pretty (year dt) ++ " " ++ pad2 (hour dt) ++ ":" ++
                pad2 (minute dt) ++ ":" ++ pad2 (second dt)))))
    ["created_at"; "updated_at"].
Proof.
  intros _.
  assert (∀ v w, treat_timestamp v = Ok w →
    (truthy v = false ∧ Some w = Some v) ∨
    (∃ s dt, v = PStr s ∧ strptime (PStr s) = Ok dt ∧ valid_datetime dt = true ∧
             Some w = Some (PStr (strftime dt)))) as Hinv.
  { intros v w [[Hf ->]|(s & dt & -> & Hp & ->)]%treat_timestamp_Ok; [by left|].
    right. exists s, dt. repeat split; try done. by eapply strptime_valid. }
  intros [H|H].
  - rewrite treat_user_detail_dict in H.
    destruct (treat_timestamp (default PNone (r !! "created_at"))) as [c|] eqn:Hc;
      [|discriminate].
    destruct (treat_timestamp (default PNone (r !! "updated_at"))) as [u|] eqn:Hu;
      [|discriminate].
    cbn in H. injection H as <-.
    apply Forall_cons. split; [|apply Forall_cons; split; [|by apply Forall_nil]];
      cbn zeta.
    + change (user_detail r c u !! "created_at") with (Some c). by apply Hinv.
    + change (user_detail r c u !! "updated_at") with (Some u). by apply Hinv.
  - rewrite treat_repositories_data_dict in H.
    destruct (treat_timestamp (default PNone (r !! "created_at"))) as [c|] eqn:Hc;
      [|discriminate].
    destruct (treat_timestamp (default PNone (r !! "updated_at"))) as [u|] eqn:Hu;
      [|discriminate].
    destruct (owner_login r) as [o|]; [|discriminate].
    cbn in H. injection H as <-.
    apply Forall_cons. split; [|apply Forall_cons; split; [|by apply Forall_nil]];
      cbn zeta.
    + change (repo_summary r c u o !! "created_at") with (Some c). by apply Hinv.
    + change (repo_summary r c u o !! "updated_at") with (Some u). by apply Hinv.
Qed.

Lemma emitted_timestamps_witness :
  Forall (fun k =>
    let r : gmap string pyval := {[ "created_at" := PStr "2011-01-25T18:44:36Z" ]} in
    let out := user_detail r (PStr "25/01/2011 18:44:36") PNone in
    let raw := default PNone (r !! k) in
    (truthy raw = false ∧ out !! k = Some raw) ∨
    (∃ s dt, raw = PStr s ∧ strptime (PStr s) = Ok dt ∧
             valid_datetime dt = true ∧
             out !! k = Some (PStr
               (pad2 (day dt) ++ "/" ++ pad2 (month dt) ++ "/" ++
                pretty (year dt) ++ " " ++ pad2 (hour dt) ++ ":" ++
                pad2 (minute dt) ++ ":" ++ pad2 (second dt)))))
    ["created_at"; "updated_at"].
Proof.
  apply (emitted_timestamps
           {[ "created_at" := PStr "2011-01-25T18:44:36Z" ]}
           (user_detail {[ "created_at" := PStr "2011-01-25T18:44:36Z" ]}
              (PStr "25/01/2011 18:44:36") PNone)).
  - repeat constructor; intros s H; vm_compute in H; try discriminate.
    injection H as <-. reflexivity.
  - left. vm_compute. reflexivity.
Defined.

(** ** Texts the parser turns down *)

Lemma strptime_display_rejected dt :
  strptime (PStr (strftime dt)) = Raise (Raised ValueErrorC).
Proof.
  unfold strptime.
  assert (rmatch strptime_regex (strftime dt) ∅
            (fun _ rest caps => Some (rest, caps)) = None) as ->; [|reflexivity].
  unfold strptime_regex, strftime, re_Y. rewrite !rmatch_Cat, rmatch_Grp.
  unfold body_Y, pad2 at 1. rewrite ?app_String, ?app_Empty.
  cbn [rmatch].
  destruct (is_digit (digit_char (day dt / 10))); [|reflexivity].
  destruct (is_digit (digit_char (day dt mod 10))); [|reflexivity].
  reflexivity.
Qed.

Lemma iso8601_z_append dt extra :
  iso8601_z dt ++ extra
  = pad4 (year dt) ++ "-" ++ pad2 (month dt) ++ "-" ++ pad2 (day dt) ++ "T" ++
    pad2 (hour dt) ++ ":" ++ pad2 (minute dt) ++ ":" ++ pad2 (second dt) ++
    "Z" ++ extra.
Proof. reflexivity. Qed.

Lemma strptime_trailing dt extra :
  valid_datetime dt = true → extra ≠ "" →
  strptime (PStr (iso8601_z dt ++ extra)) = Raise (Raised ValueErrorC).
Proof.
  intros Hv Hne. pose proof Hv as Hv'. unfold valid_datetime in Hv'.
  destruct dt as [y mo d h mi se]. cbn [year month day hour minute second] in *.
  repeat (apply andb_prop in Hv' as [Hv' ?]).
  repeat match goal with
  | H : (_ <=? _)%nat = true |- _ => apply Nat.leb_le in H
  | H : (_ <? _)%nat = true |- _ => apply Nat.ltb_lt in H
  end.
  pose proof (days_in_month_le y mo).
  unfold strptime.
  assert (∃ caps, rmatch strptime_regex
            (iso8601_z (mk_datetime y mo d h mi se) ++ extra) ∅
            (fun _ rest caps => Some (rest, caps)) = Some (extra, caps)) as [caps ->].
  { eexists. rewrite iso8601_z_append.
    unfold strptime_regex, re_Y, re_m, re_d, re_H, re_M, re_S.
    cbn [year month day hour minute second].
    rewrite !rmatch_Cat, rmatch_Grp, rmatch_body_Y by lia. cbv beta.
    rewrite rmatch_Lit, rmatch_Grp. apply rmatch_body_m; [lia|]. cbv beta.
    rewrite rmatch_Lit, rmatch_Grp. apply rmatch_body_d; [lia|]. cbv beta.
    rewrite rmatch_Lit, rmatch_Grp. apply rmatch_body_H; [lia|]. cbv beta.
    rewrite rmatch_Lit, rmatch_Grp. apply rmatch_body_M; [lia|]. cbv beta.
    rewrite rmatch_Lit, rmatch_Grp. apply rmatch_body_S; [lia|]. cbv beta.
    rewrite rmatch_Lit. reflexivity. }
  destruct extra; [congruence|reflexivity].
Qed.

(** A timestamp in the upstream format followed by any further text, a
    blank or a zone offset say, is turned down by the parser; in
    created_at it makes both mappers raise the parser's ValueError. *)
Theorem trailing_text_rejected (r : gmap string pyval) (dt : datetime)
    (extra : string) :
  valid_datetime dt = true →
  extra ≠ "" →
  r !! "created_at" = Some (PStr (iso8601_z dt ++ extra)) →
  strptime (PStr (iso8601_z dt ++ extra)) = Raise (Raised ValueErrorC) ∧
  _treat_user_detail (PDict r) = Raise (Raised ValueErrorC) ∧
  _treat_repositories_data (PList [PDict r]) = Raise (Raised ValueErrorC).
Proof.
  intros Hv Hne Hr. pose proof (strptime_trailing dt extra Hv Hne) as Hp.
  assert (treat_timestamp (PStr (iso8601_z dt ++ extra)) = Raise (Raised ValueErrorC))
    as Ht.
  { unfold treat_timestamp.
    replace (truthy (PStr (iso8601_z dt ++ extra))) with true by reflexivity.
    rewrite Hp. reflexivity. }
  split; [exact Hp|].
  rewrite treat_repositories_data_dict, treat_user_detail_dict, Hr. cbn [from_option id].
  rewrite Ht. split; reflexivity.
Qed.

Lemma trailing_text_rejected_witness :
  strptime (PStr "2011-01-25T18:44:36Z+00:00") = Raise (Raised ValueErrorC) ∧
  _treat_user_detail (PDict {[ "created_at" := PStr "2011-01-25T18:44:36Z+00:00" ]})
    = Raise (Raised ValueErrorC) ∧
  _treat_repositories_data
    (PList [PDict {[ "created_at" := PStr "2011-01-25T18:44:36Z+00:00" ]}])
    = Raise (Raised ValueErrorC).
Proof.
  apply (trailing_text_rejected
           {[ "created_at" := PStr "2011-01-25T18:44:36Z+00:00" ]}
           (mk_datetime 2011 1 25 18 44 36) "+00:00").
  - reflexivity.
  - discriminate.
  - reflexivity.
Defined.

Lemma treat_timestamp_again v w :
  treat_timestamp v = Ok w →
  treat_timestamp w
  = if truthy v then Raise (Raised ValueErrorC) else Ok w.
Proof.
  intros [[Hf ->]|(s & dt & -> & Hp & ->)]%treat_timestamp_Ok.
  - rewrite Hf. unfold treat_timestamp. by rewrite Hf.
  - assert (truthy (PStr s) = true) as ->.
    { destruct s; [|reflexivity]. vm_compute in Hp. discriminate. }
    unfold treat_timestamp.
    replace (truthy (PStr (strftime dt))) with true by reflexivity.
    rewrite strptime_display_rejected. reflexivity.
Qed.

(** A shaped record cannot be shaped again once it holds a formatted
    timestamp: when a mapper returned a record for an input whose
    created_at or updated_at was truthy, the same mapper given that record
    raises the parser's ValueError, the display text not being in the
    upstream format. *)
Theorem shaped_record_not_reshaped (r out : gmap string pyval) :
  truthy (default PNone (r !! "created_at")) = true ∨
  truthy (default PNone (r !! "updated_at")) = true →
  (_treat_user_detail (PDict r) = Ok (PDict out) →
   _treat_user_detail (PDict out) = Raise (Raised ValueErrorC)) ∧
  (_treat_repositories_data (PList [PDict r]) = Ok (PList [PDict out]) →
   _treat_repositories_data (PList [PDict out]) = Raise (Raised ValueErrorC)).
Proof.
  intros Ht. split; intros H.
  - rewrite treat_user_detail_dict in H.
    destruct (treat_timestamp (default PNone (r !! "created_at"))) as [c|] eqn:Hc;
      [|discriminate].
    destruct (treat_timestamp (default PNone (r !! "updated_at"))) as [u|] eqn:Hu;
      [|discriminate].
    cbn [mbind result_bind] in H. injection H as <-. rewrite treat_user_detail_dict.
    change (user_detail r c u !! "created_at") with (Some c).
    change (user_detail r c u !! "updated_at") with (Some u). cbn [from_option id].
    rewrite (treat_timestamp_again _ _ Hc), (treat_timestamp_again _ _ Hu).
    destruct Ht as [-> | ->]; [reflexivity|].
    destruct (truthy (default PNone (r !! "created_at"))); reflexivity.
  - rewrite treat_repositories_data_dict in H.
    destruct (treat_timestamp (default PNone (r !! "created_at"))) as [c|] eqn:Hc;
      [|discriminate].
    destruct (treat_timestamp (default PNone (r !! "updated_at"))) as [u|] eqn:Hu;
      [|discriminate].
    destruct (owner_login r) as [o|]; [|discriminate].
    cbn [mbind result_bind] in H. injection H as <-. rewrite treat_repositories_data_dict.
    change (repo_summary r c u o !! "created_at") with (Some c).
    change (repo_summary r c u o !! "updated_at") with (Some u). cbn [from_option id].
    rewrite (treat_timestamp_again _ _ Hc), (treat_timestamp_again _ _ Hu).
    destruct Ht as [-> | ->]; [reflexivity|].
    destruct (truthy (default PNone (r !! "created_at"))); reflexivity.
Qed.

Lemma shaped_record_not_reshaped_witness :
  _treat_user_detail
    (PDict (user_detail {[ "updated_at" := PStr "2011-01-25T18:44:36Z" ]}
              PNone (PStr "25/01/2011 18:44:36")))
  = Raise (Raised ValueErrorC).
Proof.
  destruct (shaped_record_not_reshaped
              {[ "updated_at" := PStr "2011-01-25T18:44:36Z" ]}
              (user_detail {[ "updated_at" := PStr "2011-01-25T18:44:36Z" ]}
                 PNone (PStr "25/01/2011 18:44:36"))) as [H _].
  - right. reflexivity.
  - apply H. vm_compute. reflexivity.
Defined.

(** A truthy value in created_at that is not a text, an epoch number or a
    list say, makes both mappers raise a TypeError, the parser taking
    texts only; the number 0, being falsy, is handed on as it is. *)
Theorem non_text_timestamp (r : gmap string pyval) (v : pyval) :
  r !! "created_at" = Some v →
  (∀ s, v ≠ PStr s) →
  (truthy v = true →
   _treat_user_detail (PDict r) = Raise (Raised TypeErrorC) ∧
   _treat_repositories_data (PList [PDict r]) = Raise (Raised TypeErrorC)) ∧
  (truthy v = false →
   ∀ out, _treat_user_detail (PDict r) = Ok (PDict out) →
          out !! "created_at" = Some v).
Proof.
  intros Hr Hv. split.
  - intros Ht.
    assert (treat_timestamp v = Raise (Raised TypeErrorC)) as Hts.
    { unfold treat_timestamp. rewrite Ht.
      destruct v; try reflexivity. by destruct (Hv s). }
    rewrite treat_repositories_data_dict, treat_user_detail_dict, Hr.
    cbn [from_option id]. rewrite Hts. split; reflexivity.
  - intros Hf out.
    assert (treat_timestamp v = Ok v) as Hts
      by (unfold treat_timestamp; by rewrite Hf).
    rewrite treat_user_detail_dict, Hr. cbn [from_option id].
    rewrite Hts. cbn [mbind result_bind].
    destruct (treat_timestamp (default PNone (r !! "updated_at"))); [|discriminate].
    cbn [mbind result_bind]. by intros [= <-].
Qed.

Lemma non_text_timestamp_witness :
  _treat_user_detail (PDict {[ "created_at" := PInt 1295981076 ]})
    = Raise (Raised TypeErrorC) ∧
  _treat_repositories_data (PList [PDict {[ "created_at" := PInt 1295981076 ]}])
    = Raise (Raised TypeErrorC).
Proof.
  destruct (non_text_timestamp {[ "created_at" := PInt 1295981076 ]}
              (PInt 1295981076)) as [H _].
  - reflexivity.
  - discriminate.
  - apply H. reflexivity.
Defined.

(** ** The display text keeps the date and time *)

Lemma pad2_inj a b : a < 100 → b < 100 → pad2 a = pad2 b → a = b.
Proof.
  intros Ha Hb H. apply (f_equal py_int) in H.
  rewrite !py_int_pad2 in H by assumption. congruence.
Qed.

Lemma append_length (a b : string) :
  String.length (a ++ b) = String.length a + String.length b.
Proof.
  induction a as [|c a IH]; [reflexivity|].
  rewrite app_String. cbn [String.length]. by rewrite IH.
Qed.

Lemma append_same_length (a b c d : string) :
  a ++ b = c ++ d → String.length a = String.length c → a = c ∧ b = d.
Proof.
  revert c. induction a as [|x a IH]; intros [|y c] H Hl; try discriminate.
  - rewrite !app_Empty in H. done.
  - rewrite !app_String in H. injection H as -> H. injection Hl as Hl.
    destruct (IH c H Hl) as [-> ->]. done.
Qed.

(** Two valid dates and times that the mappers show with the same display
    text are the same: the reformatting of a timestamp in the upstream
    format loses none of it. *)
Theorem display_text_injective (dt1 dt2 : datetime) :
  valid_datetime dt1 = true →
  valid_datetime dt2 = true →
  treat_timestamp (PStr (iso8601_z dt1)) = treat_timestamp (PStr (iso8601_z dt2)) →
  dt1 = dt2.
Proof.
  intros Hv1 Hv2. rewrite !treat_timestamp_iso8601_z by assumption.
  intros Heq. assert (strftime dt1 = strftime dt2) as H by congruence. clear Heq.
  destruct dt1 as [y1 mo1 d1 h1 mi1 s1], dt2 as [y2 mo2 d2 h2 mi2 s2].
  unfold valid_datetime in Hv1, Hv2. cbn [year month day hour minute second] in *.
  repeat (apply andb_prop in Hv1 as [Hv1 ?]).
  repeat (apply andb_prop in Hv2 as [Hv2 ?]).
  repeat match goal with
  | H : (_ <=? _)%nat = true |- _ => apply Nat.leb_le in H
  | H : (_ <? _)%nat = true |- _ => apply Nat.ltb_lt in H
  end.
  pose proof (days_in_month_le y1 mo1). pose proof (days_in_month_le y2 mo2).
  unfold strftime in H. cbn [year month day hour minute second] in H.
  apply append_same_length in H as [Hd H]; [|reflexivity].
  apply append_same_length in H as [_ H]; [|reflexivity].
  apply append_same_length in H as [Hm H]; [|reflexivity].
  apply append_same_length in H as [_ H]; [|reflexivity].
  assert (String.length (pretty y1) = String.length (pretty y2)) as Hlen.
  { apply (f_equal String.length) in H. rewrite !append_length in H.
    unfold pad2 in H. cbn [String.length] in H. lia. }
  apply append_same_length in H as [Hy H]; [|exact Hlen].
  apply append_same_length in H as [_ H]; [|reflexivity].
  apply append_same_length in H as [Hh H]; [|reflexivity].
  apply append_same_length in H as [_ H]; [|reflexivity].
  apply append_same_length in H as [Hmi H]; [|reflexivity].
  apply append_same_length in H as [_ Hs]; [|reflexivity].
  apply pretty_nat_inj in Hy.
  apply pad2_inj in Hd, Hm, Hh, Hmi, Hs; [|lia..].
  congruence.
Qed.

Lemma display_text_injective_witness :
  mk_datetime 2011 1 25 18 44 36 = mk_datetime 2011 1 25 18 44 36.
Proof.
  apply (display_text_injective (mk_datetime 2011 1 25 18 44 36)
           (mk_datetime 2011 1 25 18 44 36)); reflexivity.
Defined.

(** ** Lists of repositories *)

Lemma treat_repositories_data_one x o :
  _treat_repositories_data (PList [x]) = Ok (PList [o]) ↔ treat_repo x = Ok o.
Proof.
  rewrite treat_repositories_data_single. destruct (treat_repo x); cbn.
  - split; congruence.
  - split; discriminate.
Qed.

(** The repository mapper returns for a list exactly when it returns for
    each element taken alone, and then with the elements' records in the
    order of the list, one for each; so it returns only for lists of
    objects, and one element that raises makes the whole list raise. *)
Theorem repositories_mapper_elementwise (l : list pyval) :
  (∀ outs,
     _treat_repositories_data (PList l) = Ok (PList outs) ↔
     Forall2 (fun x o => _treat_repositories_data (PList [x]) = Ok (PList [o]))
       l outs) ∧
  (∀ outs, _treat_repositories_data (PList l) = Ok (PList outs) →
           List.length outs = List.length l ∧ forallb is_record l = true) ∧
  (∀ x e, x ∈ l → _treat_repositories_data (PList [x]) = Raise e →
          ∃ e', _treat_repositories_data (PList l) = Raise e').
Proof.
  assert (∀ outs, _treat_repositories_data (PList l) = Ok (PList outs) ↔
                  for_each treat_repo l = Ok outs) as Hfe.
  { intros outs. unfold _treat_repositories_data. cbn [py_iter mbind result_bind].
    destruct (for_each treat_repo l); cbn; split; congruence. }
  split; [|split].
  - intros outs. rewrite Hfe, for_each_Forall2.
    split; intros H; (eapply Forall2_impl; [exact H|]);
      intros x o; apply treat_repositories_data_one.
  - intros outs Hf%Hfe%for_each_Forall2. split.
    + symmetry. by eapply Forall2_length.
    + apply forallb_forall. intros x Hx%list_elem_of_In.
      destruct (is_record x) eqn:Hr; [done|].
      apply list_elem_of_lookup in Hx as [i Hi].
      destruct (Forall2_lookup_l _ _ _ _ _ Hf Hi) as (o & _ & Ho).
      rewrite (treat_repo_not_record x Hr) in Ho. discriminate.
  - intros x e Hx Hr. rewrite treat_repositories_data_single in Hr.
    destruct (treat_repo x) as [o|e0] eqn:Hx0; [discriminate|].
    destruct (for_each_raises treat_repo l x e0 Hx Hx0) as [e' He'].
    exists e'. unfold _treat_repositories_data. cbn [py_iter mbind result_bind].
    by rewrite He'.
Qed.

(** ** The operations from end to end *)

Lemma treat_users_data_records (us : list (gmap string pyval)) :
  _treat_users_data (PList (PDict <$> us)) = Ok (PList (PDict ∘ user_summary <$> us)).
Proof.
  unfold _treat_users_data. cbn [py_iter mbind result_bind].
  assert (for_each treat_user (PDict <$> us) = Ok (PDict ∘ user_summary <$> us)) as ->;
    [|reflexivity].
  apply for_each_Forall2, Forall2_fmap, Forall_Forall2_diag, Forall_forall.
  intros u _. apply treat_user_dict.
Qed.

Section ClientEndToEnd.
Variable upstream : list request → request → outcome.

(** When the upstream answers with a status outside 400..599 and a JSON
    body, get_users returns one summary for each user object of the body,
    in the order of the body, and get_user_details returns the detail
    record of the body's object, or raises what treating one of its two
    timestamps raises. *)
Theorem list_and_detail_results (self : GitHubAPIConsumer) (since per_page : Z)
    (username : string) (log : list request) (r : response) :
  (∀ req, upstream log req = Responded r) →
  ¬ (400 ≤ status_code r < 600)%Z →
  (∀ us : list (gmap string pyval), body r = inl (PList (PDict <$> us)) →
     snd (get_users upstream self since per_page log)
     = Ok (PList (PDict ∘ user_summary <$> us))) ∧
  (∀ (user : gmap string pyval) c u, body r = inl (PDict user) →
     treat_timestamp (default PNone (user !! "created_at")) = Ok c →
     treat_timestamp (default PNone (user !! "updated_at")) = Ok u →
     snd (get_user_details upstream self username log)
     = Ok (PDict (user_detail user c u))) ∧
  (∀ (user : gmap string pyval) e, body r = inl (PDict user) →
     treat_timestamp (default PNone (user !! "created_at")) = Raise e →
     snd (get_user_details upstream self username log) = Raise e).
Proof.
  intros Hup Hs. apply raise_for_status_None in Hs.
  unfold get_users, get_user_details. rewrite !net_bind_lift_result.
  repeat split.
  - intros us Hb. rewrite (make_request_result _ _ _ _ _ r _ (Hup _) Hs Hb).
    apply treat_users_data_records.
  - intros user c u Hb Hc Hu.
    rewrite (make_request_result _ _ _ _ _ r _ (Hup _) Hs Hb).
    cbn [mbind result_bind]. rewrite treat_user_detail_dict, Hc, Hu. reflexivity.
  - intros user e Hb Hc.
    rewrite (make_request_result _ _ _ _ _ r _ (Hup _) Hs Hb).
    cbn [mbind result_bind]. rewrite treat_user_detail_dict, Hc. reflexivity.
Qed.

(** Every request of every operation of a client built with a non-empty
    token carries that token in its Authorization header; a client built
    without token, or with the empty one, sends no Authorization header. *)
Theorem token_attached (token : option string) (since per_page : Z)
    (query su sr order username : string) (log : list request) :
  su ∈ user_valid_sorts →
  sr ∈ repo_valid_sorts →
  let self := __init__ token in
  let auth := match token with
              | Some (String c t) => Some ("token " ++ String c t)
              | _ => None
              end in
  Forall (fun sent =>
    ∃ req, sent = (log ++ [req])%list ∧ req_headers req !! "Authorization" = auth)
    [fst (get_users upstream self since per_page log);
     fst (get_user_details upstream self username log);
     fst (search_users upstream self query su order per_page log);
     fst (search_repositories upstream self query sr order per_page log)].
Proof.
  intros Hu Hr self auth.
  assert (headers self !! "Authorization" = auth) as Hauth.
  { subst self auth. destruct token as [[|c t]|]; reflexivity. }
  unfold get_users, get_user_details, search_users, search_repositories.
  rewrite !decide_True by assumption. rewrite !net_bind_lift_log.
  repeat (apply Forall_cons; split); [..|by apply Forall_nil];
    (eexists; split; [reflexivity|exact Hauth]).
Qed.
End ClientEndToEnd.

Lemma list_and_detail_results_witness :
  let answer : list request → request → outcome := fun _ _ =>
    Responded (mk_response 200 "OK" "https://api.github.com/users?since=0&per_page=30"
                 (inl (PList [PDict {[ "login" := PStr "mojombo" ]};
                              PDict {[ "login" := PStr "defunkt" ]}]))) in
  snd (get_users answer (__init__ None) 0 30 [])
  = Ok (PList [PDict (user_summary {[ "login" := PStr "mojombo" ]});
               PDict (user_summary {[ "login" := PStr "defunkt" ]})]).
Proof.
  intros answer.
  destruct (list_and_detail_results answer (__init__ None) 0 30 "mojombo" []
              (mk_response 200 "OK" "https://api.github.com/users?since=0&per_page=30"
                 (inl (PList [PDict {[ "login" := PStr "mojombo" ]};
                              PDict {[ "login" := PStr "defunkt" ]}]))))
    as (H & _).
  - reflexivity.
  - cbn. lia.
  - exact (H [{[ "login" := PStr "mojombo" ]}; {[ "login" := PStr "defunkt" ]}]
             eq_refl).
Defined.

Lemma token_attached_witness :
  Forall (fun sent =>
    ∃ req, sent = [req] ∧
           req_headers req !! "Authorization" = Some "token ghp_example")
    [fst (get_users (fun _ _ => Failed "down") (__init__ (Some "ghp_example")) 0 30 []);
     fst (get_user_details (fun _ _ => Failed "down") (__init__ (Some "ghp_example"))
            "torvalds" []);
     fst (search_users (fun _ _ => Failed "down") (__init__ (Some "ghp_example"))
            "location:brazil" "followers" "desc" 30 []);
     fst (search_repositories (fun _ _ => Failed "down")
            (__init__ (Some "ghp_example")) "location:brazil" "stars" "desc" 30 [])].
Proof.
  apply (token_attached (fun _ _ => Failed "down") (Some "ghp_example") 0 30
           "location:brazil" "followers" "stars" "desc" "torvalds" []).
  - apply (bool_decide_unpack _). vm_compute. exact I.
  - apply (bool_decide_unpack _). vm_compute. exact I.
Defined.

Lemma upstream_failure_propagates_witness :
  snd (get_user_details (fun _ _ => Failed "timed out") (__init__ None) "torvalds" [])
  = Raise (ValueError "Erro na requisição: timed out").
Proof.
  destruct (upstream_failure_propagates (fun _ _ => Failed "timed out")
              (__init__ None) 0 30 "location:brazil" "followers" "stars" "desc"
              "torvalds" [] (Failed "timed out")) as [H _].
  - apply (bool_decide_unpack _). vm_compute. exact I.
  - apply (bool_decide_unpack _). vm_compute. exact I.
  - reflexivity.
  - exact (proj1 (proj2 (H "timed out" eq_refl))).
Defined.

Lemma odd_payloads_witness :
  let answer : list request → request → outcome := fun _ _ =>
    Responded (mk_response 200 "OK" "https://api.github.com/search/users"
                 (inl (PDict {[ "items" := PNone ]}))) in
  snd (search_users answer (__init__ None) "location:brazil" "followers" "desc" 5 [])
  = Raise (Raised TypeErrorC).
Proof.
  intros answer.
  destruct (odd_payloads answer (__init__ None)
              "location:brazil" "followers" "stars" "desc" "torvalds" 5 []
              (mk_response 200 "OK" "https://api.github.com/search/users"
                 (inl (PDict {[ "items" := PNone ]})))
              (PDict {[ "items" := PNone ]})) as (_ & H & _).
  - apply (bool_decide_unpack _). vm_compute. exact I.
  - apply (bool_decide_unpack _). vm_compute. exact I.
  - reflexivity.
  - cbn. lia.
  - reflexivity.
  - exact (proj1 (H {[ "items" := PNone ]} eq_refl eq_refl)).
Defined.
